(** * Telemetry aggregation of the state service (state-service/src/telemetry.py)

    A shallow embedding of the episode-to-summary pipeline: the action
    classifier, the cursor distance, the regression and progression rates,
    the latency percentiles, the record assembly and the reporting call.

    Python values are dynamically typed.  The payloads the code probes with
    [.get], [isinstance] and [in] are embedded as the JSON-like type [PyVal];
    every operation that Python can reject raises the exception Python raises,
    in the error monad [Result].  JSON numbers are integers here: the payload
    fields the code computes with (line numbers, character offsets, test
    counts, millisecond timestamps) are integer fields. *)

From Stdlib Require Import ZArith QArith String Ascii List Lia SpecFloat.
From stdpp Require Import base option list sorting gmap strings.

Local Open Scope string_scope.
Local Open Scope Z_scope.

(** ** Python values and exceptions *)

#[local] Set Warnings "-register-all".

Inductive PyVal : Type :=
| PNone
| PBool (b : bool)
| PInt (z : Z)
| PStr (s : string)
| PList (l : list PyVal)
| PDict (d : list (string * PyVal)).

(** The exception classes that occur in the module.  [OSError] and
    [JSONDecodeError] come from reading the identity file, [RequestException]
    and [HTTPError] from the [requests] calls. *)
Inductive exn : Type :=
| ValueError
| TypeError
| AttributeError
| KeyError
| IndexError
| ZeroDivisionError
| OSError
| JSONDecodeError
| RequestException
| HTTPError.

#[global] Instance exn_eq_dec : EqDecision exn.
Proof. solve_decision. Defined.

Inductive Result (A : Type) : Type :=
| Ok (a : A)
| Raise (e : exn).
Arguments Ok {A} a.
Arguments Raise {A} e.

#[global] Instance Result_ret : MRet Result := fun A a => Ok a.
#[global] Instance Result_bind : MBind Result := fun A B f m =>
  match m with
  | Ok a => f a
  | Raise e => Raise e
  end.

(** [try: m except (classes): handler] for a computation without state. *)
Definition try_except {A} (m : Result A) (caught : exn -> bool) (handler : exn -> Result A)
  : Result A :=
  match m with
  | Ok a => Ok a
  | Raise e => if caught e then handler e else Raise e
  end.

(** ** Dictionaries

    A [dict] keeps insertion order (and a JSON object its key order), which
    [get_user_id] observes; it is an association list searched from the
    front. *)
Fixpoint dict_lookup (k : string) (d : list (string * PyVal)) : option PyVal :=
  match d with
  | [] => None
  | (k', v) :: d' => if String.eqb k k' then Some v else dict_lookup k d'
  end.

(** [d.get(k, default)] on a value known to be a dict. *)
Definition dict_get (d : list (string * PyVal)) (k : string) (default : PyVal) : PyVal :=
  match dict_lookup k d with
  | Some v => v
  | None => default
  end.

(** [x.get(k, default)] on an arbitrary value: only a dict has [get]. *)
Definition py_get (x : PyVal) (k : string) (default : PyVal) : Result PyVal :=
  match x with
  | PDict d => Ok (dict_get d k default)
  | _ => Raise AttributeError
  end.

(** [x[k]] with a string key. *)
Definition py_getitem (x : PyVal) (k : string) : Result PyVal :=
  match x with
  | PDict d =>
      match dict_lookup k d with
      | Some v => Ok v
      | None => Raise KeyError
      end
  | _ => Raise TypeError
  end.

Definition isinstance_dict (x : PyVal) : bool :=
  match x with
  | PDict _ => true
  | _ => false
  end.

(** [isinstance(x, int)]: [bool] is a subclass of [int]. *)
Definition isinstance_int (x : PyVal) : bool :=
  match x with
  | PInt _ | PBool _ => true
  | _ => false
  end.

(** [k in x] once [isinstance(x, dict)] has been checked. *)
Definition dict_contains (x : PyVal) (k : string) : bool :=
  match x with
  | PDict d => bool_decide (is_Some (dict_lookup k d))
  | _ => false
  end.

Definition is_None (x : PyVal) : bool :=
  match x with
  | PNone => true
  | _ => false
  end.

(** Truth value of a Python object. *)
Definition truthy (x : PyVal) : bool :=
  match x with
  | PNone => false
  | PBool b => b
  | PInt z => negb (z =? 0)
  | PStr s => negb (String.eqb s "")
  | PList l => match l with [] => false | _ => true end
  | PDict d => match d with [] => false | _ => true end
  end.

(** [a and b]: the first operand when it is falsy, the second otherwise.
    The second operand is evaluated only in the latter case. *)
Definition py_and (a : PyVal) (b : Result PyVal) : Result PyVal :=
  if truthy a then b else Ok a.

(** ** Arithmetic and comparison *)

Definition as_number (x : PyVal) : option Z :=
  match x with
  | PInt z => Some z
  | PBool b => Some (if b then 1 else 0)
  | _ => None
  end.

Definition py_sub (a b : PyVal) : Result Z :=
  match as_number a, as_number b with
  | Some x, Some y => Ok (x - y)
  | _, _ => Raise TypeError
  end.

(** [a // b] for a positive literal [b]. *)
Definition py_floordiv (a : PyVal) (b : Z) : Result Z :=
  match as_number a with
  | Some x => if b =? 0 then Raise ZeroDivisionError else Ok (x / b)
  | None => Raise TypeError
  end.

(** [==] on JSON-like values: numbers by value ([True == 1]), lists
    elementwise, dicts as finite maps. *)
Fixpoint py_eqb (a b : PyVal) {struct a} : bool :=
  match a, b with
  | PNone, PNone => true
  | PStr s, PStr t => String.eqb s t
  | PList xs, PList ys =>
      (fix go (xs ys : list PyVal) {struct xs} : bool :=
         match xs, ys with
         | [], [] => true
         | x :: xs', y :: ys' => py_eqb x y && go xs' ys'
         | _, _ => false
         end) xs ys
  | PDict d, PDict e =>
      (length d =? length e)%nat &&
      (fix go (d : list (string * PyVal)) : bool :=
         match d with
         | [] => true
         | (k, v) :: d' =>
             match dict_lookup k e with
             | Some w => py_eqb v w
             | None => false
             end && go d'
         end) d
  | _, _ =>
      match as_number a, as_number b with
      | Some x, Some y => x =? y
      | _, _ => false
      end
  end.

(** [a < b]: numbers by value, strings and lists lexicographically; every
    other pairing is a [TypeError]. *)
Fixpoint py_lt (a b : PyVal) {struct a} : Result bool :=
  match a, b with
  | PStr s, PStr t => Ok (String.ltb s t)
  | PList xs, PList ys =>
      (fix go (xs ys : list PyVal) {struct xs} : Result bool :=
         match xs, ys with
         | [], [] => Ok false
         | [], _ :: _ => Ok true
         | _ :: _, [] => Ok false
         | x :: xs', y :: ys' => if py_eqb x y then go xs' ys' else py_lt x y
         end) xs ys
  | _, _ =>
      match as_number a, as_number b with
      | Some x, Some y => Ok (x <? y)
      | _, _ => Raise TypeError
      end
  end.

(** [a > b] is [b < a] on these types. *)
Definition py_gt (a b : PyVal) : Result bool := py_lt b a.

(** ** [int(x)]

    An integer is returned as it is, a bool as 0 or 1, a string is parsed as
    a decimal literal (surrounding white space, one sign, single underscores
    between digits) and raises [ValueError] otherwise; [None], lists and
    dicts raise [TypeError]. *)
Definition is_space (c : ascii) : bool :=
  let n := nat_of_ascii c in
  ((9 <=? n)%nat && (n <=? 13)%nat) || (n =? 32)%nat || ((28 <=? n)%nat && (n <=? 31)%nat).

Fixpoint lstrip (s : string) : string :=
  match s with
  | String c s' => if is_space c then lstrip s' else s
  | EmptyString => s
  end.

Fixpoint string_rev_onto (s acc : string) : string :=
  match s with
  | EmptyString => acc
  | String c s' => string_rev_onto s' (String c acc)
  end.

Definition strip (s : string) : string :=
  string_rev_onto (lstrip (string_rev_onto (lstrip s) "")) "".

Definition digit_value (c : ascii) : option Z :=
  let n := nat_of_ascii c in
  if ((48 <=? n)%nat && (n <=? 57)%nat) then Some (Z.of_nat n - 48) else None.

(** [after_digit] tells whether the previous character was a digit, which
    is where an underscore may stand. *)
Fixpoint parse_digits (s : string) (acc : Z) (after_digit : bool) : option Z :=
  match s with
  | EmptyString => if after_digit then Some acc else None
  | String c s' =>
      match digit_value c with
      | Some d => parse_digits s' (10 * acc + d) true
      | None =>
          if (Ascii.eqb c "_"%char && after_digit)%bool
          then match s' with
               | EmptyString => None
               | String c' _ =>
                   match digit_value c' with
                   | Some _ => parse_digits s' acc false
                   | None => None
                   end
               end
          else None
      end
  end.

Definition parse_int (s : string) : option Z :=
  match strip s with
  | String "-" s' => Z.opp <$> parse_digits s' 0 false
  | String "+" s' => parse_digits s' 0 false
  | s' => parse_digits s' 0 false
  end.

Definition py_int (x : PyVal) : Result Z :=
  match x with
  | PInt z => Ok z
  | PBool b => Ok (if b then 1 else 0)
  | PStr s =>
      match parse_int s with
      | Some z => Ok z
      | None => Raise ValueError
      end
  | PNone | PList _ | PDict _ => Raise TypeError
  end.

(** ** Lists, ranges and loops *)

(** [l[i]] for a non-negative index. *)
Definition index {A} (l : list A) (i : nat) : Result A :=
  match l !! i with
  | Some x => Ok x
  | None => Raise IndexError
  end.

(** [range(a, b)]. *)
Definition range (a b : nat) : list nat := seq a (b - a).

(** [for i in items: s = body i s], stopping at the first exception. *)
Fixpoint for_in {I S : Type} (body : I -> S -> Result S) (items : list I) (s : S)
  : Result S :=
  match items with
  | [] => Ok s
  | i :: items' => s' ← body i s; for_in body items' s'
  end.

(** [sorted(l, key=key)] and [l.sort()]: the stable sort.  An element goes
    in front of the first element whose key is not smaller, so elements with
    equal keys keep their order. *)
Fixpoint insert_by {A} (key : A -> Z) (x : A) (l : list A) : list A :=
  match l with
  | [] => [x]
  | y :: l' => if key x <=? key y then x :: l else y :: insert_by key x l'
  end.

Fixpoint sorted_by {A} (key : A -> Z) (l : list A) : list A :=
  match l with
  | [] => []
  | x :: l' => insert_by key x (sorted_by key l')
  end.

(** [max(l, key=key)] on a non-empty list: the first element with the
    largest key. *)
Fixpoint max_by {A} (key : A -> Z) (best : A) (l : list A) : A :=
  match l with
  | [] => best
  | x :: l' => max_by key (if key best <? key x then x else best) l'
  end.

(** ** Data model *)

(** Modelled from the spec: the enumeration [ActionIndex] of
    src/api/datatypes.py, which is not among the sources.  The spec lists it
    as a closed enumeration of seven kinds; telemetry.py names the same seven
    members when it assembles the record.  Iterating the class yields the
    members in definition order. *)
Inductive ActionIndex : Type :=
| NO_OP
| FILL_PARTIAL_LINE
| REPLACE_AND_APPEND_SINGLE_LINE
| REPLACE_AND_APPEND_MULTI_LINE
| EDIT_EXISTING_LINES
| EXPLAIN_SINGLE_LINES
| EXPLAIN_MULTI_LINE.

#[global] Instance ActionIndex_eq_dec : EqDecision ActionIndex.
Proof. solve_decision. Defined.

Definition ActionIndex_members : list ActionIndex :=
  [NO_OP; FILL_PARTIAL_LINE; REPLACE_AND_APPEND_SINGLE_LINE;
   REPLACE_AND_APPEND_MULTI_LINE; EDIT_EXISTING_LINES; EXPLAIN_SINGLE_LINES;
   EXPLAIN_MULTI_LINE].

Definition ActionIndex_code (k : ActionIndex) : nat :=
  match k with
  | NO_OP => 0
  | FILL_PARTIAL_LINE => 1
  | REPLACE_AND_APPEND_SINGLE_LINE => 2
  | REPLACE_AND_APPEND_MULTI_LINE => 3
  | EDIT_EXISTING_LINES => 4
  | EXPLAIN_SINGLE_LINES => 5
  | EXPLAIN_MULTI_LINE => 6
  end%nat.

#[global] Instance ActionIndex_countable : Countable ActionIndex.
Proof.
  refine (inj_countable' ActionIndex_code
            (fun n => nth n ActionIndex_members NO_OP) _).
  intros []; reflexivity.
Defined.

(** Modelled from the spec: the [State] and [Episode] rows of
    src/store/schema.py, which is not among the sources.  [timestep] is the
    integer sequence index the code sorts by; [timestamp_ms] is read with
    [getattr] and a default, so the attribute may be absent ([None] here) or
    hold any value (a null is [Some PNone]); [action] is an optional dict,
    [attribution] a list, [env] a dict.  The episode's times are integers. *)
Record State : Type := {
  timestep : Z;
  timestamp_ms : option PyVal;
  action : option (list (string * PyVal));
  attribution : list PyVal;
  env : list (string * PyVal)
}.

Record Episode : Type := {
  episode_id : string;
  problem_id : string;
  start_time : Z;
  end_time : Z;
  states : list State
}.

(** The dictionary [_compute_action_statistics] returns.  A distance is
    [abs] of an integer difference, or the literal [0.0], written 0. *)
Record ActionStats : Type := {
  assistant_actions : gmap ActionIndex Z;
  human_actions : gmap ActionIndex Z;
  edit_existing_distances : list Z;
  explain_single_distances : list Z;
  explain_multi_distances : list Z
}.

(** The loop of the classifier updates its five accumulators in place, and
    an update made before an exception is caught stays: computations over
    the accumulators return the store together with the outcome. *)
Definition Run (A : Type) : Type := ActionStats -> ActionStats * Result A.

#[global] Instance Run_ret : MRet Run := fun A a s => (s, Ok a).
#[global] Instance Run_bind : MBind Run := fun A B f m s =>
  match m s with
  | (s', Ok a) => f a s'
  | (s', Raise e) => (s', Raise e)
  end.

Definition lift {A} (r : Result A) : Run A := fun s => (s, r).

(** [try: m except (classes): continue]. *)
Definition run_try (m : Run unit) (caught : exn -> bool) : Run unit := fun s =>
  match m s with
  | (s', Ok a) => (s', Ok a)
  | (s', Raise e) => if caught e then (s', Ok tt) else (s', Raise e)
  end.

Fixpoint run_for {I} (body : I -> Run unit) (items : list I) : Run unit :=
  match items with
  | [] => mret tt
  | i :: items' => _ ← body i; run_for body items'
  end.

(** [counts[k] += 1] on a dict: reading a missing key is a [KeyError]. *)
Definition dict_incr (counts : gmap ActionIndex Z) (k : ActionIndex)
  : Result (gmap ActionIndex Z) :=
  match counts !! k with
  | Some n => Ok (<[k := n + 1]> counts)
  | None => Raise KeyError
  end.

Definition incr_assistant (k : ActionIndex) : Run unit := fun s =>
  match dict_incr (assistant_actions s) k with
  | Ok m => ({| assistant_actions := m;
                human_actions := human_actions s;
                edit_existing_distances := edit_existing_distances s;
                explain_single_distances := explain_single_distances s;
                explain_multi_distances := explain_multi_distances s |}, Ok tt)
  | Raise e => (s, Raise e)
  end.

Definition incr_human (k : ActionIndex) : Run unit := fun s =>
  match dict_incr (human_actions s) k with
  | Ok m => ({| assistant_actions := assistant_actions s;
                human_actions := m;
                edit_existing_distances := edit_existing_distances s;
                explain_single_distances := explain_single_distances s;
                explain_multi_distances := explain_multi_distances s |}, Ok tt)
  | Raise e => (s, Raise e)
  end.

Definition append_edit_existing (d : Z) : Run unit := fun s =>
  ({| assistant_actions := assistant_actions s;
      human_actions := human_actions s;
      edit_existing_distances := edit_existing_distances s ++ [d];
      explain_single_distances := explain_single_distances s;
      explain_multi_distances := explain_multi_distances s |}, Ok tt).

Definition append_explain_single (d : Z) : Run unit := fun s =>
  ({| assistant_actions := assistant_actions s;
      human_actions := human_actions s;
      edit_existing_distances := edit_existing_distances s;
      explain_single_distances := explain_single_distances s ++ [d];
      explain_multi_distances := explain_multi_distances s |}, Ok tt).

Definition append_explain_multi (d : Z) : Run unit := fun s =>
  ({| assistant_actions := assistant_actions s;
      human_actions := human_actions s;
      edit_existing_distances := edit_existing_distances s;
      explain_single_distances := explain_single_distances s;
      explain_multi_distances := explain_multi_distances s ++ [d] |}, Ok tt).

(** [{action: 0 for action in ActionIndex}]. *)
Definition zero_counts : gmap ActionIndex Z :=
  list_to_map ((fun k => (k, 0)) <$> ActionIndex_members).

Definition initial_stats : ActionStats :=
  {| assistant_actions := zero_counts;
     human_actions := zero_counts;
     edit_existing_distances := [];
     explain_single_distances := [];
     explain_multi_distances := [] |}.

(** ** Cursor distance *)

Definition _is_assistant_action (action_dict : option (list (string * PyVal))) : bool :=
  match action_dict with
  | None => false
  | Some d => negb (is_None (dict_get d "A" PNone))
  end.

(** The [for] loop of [_get_cursor_line_from_attribution]. *)
Fixpoint scan_attribution (attribution : list PyVal) : Result PyVal :=
  match attribution with
  | [] => Ok PNone
  | attr :: rest =>
      if isinstance_dict attr && dict_contains attr "cursor" then
        cursor_info ← py_getitem attr "cursor";
        if isinstance_dict cursor_info && dict_contains cursor_info "line" then
          py_getitem cursor_info "line"
        else if isinstance_dict cursor_info && dict_contains cursor_info "char" then
          char_pos ← py_get cursor_info "char" (PInt 0);
          q ← py_floordiv char_pos 80;
          Ok (PInt (Z.max 1 q))
        else scan_attribution rest
      else scan_attribution rest
  end.

Definition _get_cursor_line_from_attribution (attribution : list PyVal) : Result PyVal :=
  if negb (truthy (PList attribution)) then Ok PNone
  else scan_attribution attribution.

Definition _calculate_cursor_distance (state : State) : Result Z :=
  match action state with
  | None => Ok 0
  | Some act =>
      if negb (truthy (PDict act)) then Ok 0
      else
        let target_line := dict_get act "target_line" (PInt 1) in
        cursor_line ← _get_cursor_line_from_attribution (attribution state);
        if is_None cursor_line then Ok 0
        else d ← py_sub target_line cursor_line; Ok (Z.abs d)
  end.

#[global] Instance Result_fmap : FMap Result := fun A B f m =>
  match m with
  | Ok a => Ok (f a)
  | Raise e => Raise e
  end.

(** ** Regression and progression rates *)

Record RegressionCounters : Type := {
  test_regressions : Z;
  compile_regressions : Z;
  test_progressions : Z;
  compile_progressions : Z;
  total_transitions : Z
}.

(** A rate is the quotient of two integers.  Python computes the binary64
    number nearest to it; the rational itself is kept here, and the literal
    [0.0] is the rational 0. *)
Record RegressionRates : Type := {
  test_regression_rate : Q;
  compile_regression_rate : Q;
  test_progression_rate : Q;
  compile_progression_rate : Q
}.

Definition py_truediv (a b : Z) : Result Q :=
  if b =? 0 then Raise ZeroDivisionError else Ok (inject_Z a / inject_Z b)%Q.

(** [state.env.get("compiled", False)]. *)
Definition env_compiled (state : State) : PyVal :=
  dict_get (env state) "compiled" (PBool false).

(** [state.env.get("tests", {}).get("passed", 0)]. *)
Definition env_tests_passed (state : State) : Result PyVal :=
  py_get (dict_get (env state) "tests" (PDict [])) "passed" (PInt 0).

Definition count_compile (prev_compiled curr_compiled : PyVal) (c : RegressionCounters)
  : RegressionCounters :=
  if truthy prev_compiled && negb (truthy curr_compiled) then
    {| test_regressions := test_regressions c;
       compile_regressions := compile_regressions c + 1;
       test_progressions := test_progressions c;
       compile_progressions := compile_progressions c;
       total_transitions := total_transitions c |}
  else if negb (truthy prev_compiled) && truthy curr_compiled then
    {| test_regressions := test_regressions c;
       compile_regressions := compile_regressions c;
       test_progressions := test_progressions c;
       compile_progressions := compile_progressions c + 1;
       total_transitions := total_transitions c |}
  else c.

Definition count_tests (prev_tests_passed curr_tests_passed : PyVal) (c : RegressionCounters)
  : Result RegressionCounters :=
  lt ← py_lt curr_tests_passed prev_tests_passed;
  if lt : bool then
    Ok {| test_regressions := test_regressions c + 1;
          compile_regressions := compile_regressions c;
          test_progressions := test_progressions c;
          compile_progressions := compile_progressions c;
          total_transitions := total_transitions c |}
  else
    gt ← py_gt curr_tests_passed prev_tests_passed;
    if gt : bool then
      Ok {| test_regressions := test_regressions c;
            compile_regressions := compile_regressions c;
            test_progressions := test_progressions c + 1;
            compile_progressions := compile_progressions c;
            total_transitions := total_transitions c |}
    else Ok c.

Definition count_transition (c : RegressionCounters) : RegressionCounters :=
  {| test_regressions := test_regressions c;
     compile_regressions := compile_regressions c;
     test_progressions := test_progressions c;
     compile_progressions := compile_progressions c;
     total_transitions := total_transitions c + 1 |}.

(** The body of [for i in range(1, len(episode.states))], after the two
    states have been read. *)
Definition regression_body (prev_state curr_state : State) (c : RegressionCounters)
  : Result RegressionCounters :=
  let prev_compiled := env_compiled prev_state in
  let curr_compiled := env_compiled curr_state in
  prev_tests_passed ← env_tests_passed prev_state;
  curr_tests_passed ← env_tests_passed curr_state;
  c' ← count_tests prev_tests_passed curr_tests_passed
         (count_compile prev_compiled curr_compiled c);
  Ok (count_transition c').

Definition regression_step (sts : list State) (i : nat) (c : RegressionCounters)
  : Result RegressionCounters :=
  prev_state ← index sts (i - 1);
  curr_state ← index sts i;
  regression_body prev_state curr_state c.

Definition zero_counters : RegressionCounters :=
  {| test_regressions := 0; compile_regressions := 0; test_progressions := 0;
     compile_progressions := 0; total_transitions := 0 |}.

Definition zero_rates : RegressionRates :=
  {| test_regression_rate := 0; compile_regression_rate := 0;
     test_progression_rate := 0; compile_progression_rate := 0 |}.

Definition _compute_regression_rates (episode : Episode) : Result RegressionRates :=
  if (length (states episode) <? 2)%nat then Ok zero_rates
  else
    c ← for_in (regression_step (states episode))
          (range 1 (length (states episode))) zero_counters;
    trr ← py_truediv (test_regressions c) (Z.max (total_transitions c) 1);
    crr ← py_truediv (compile_regressions c) (Z.max (total_transitions c) 1);
    tpr ← py_truediv (test_progressions c) (Z.max (total_transitions c) 1);
    cpr ← py_truediv (compile_progressions c) (Z.max (total_transitions c) 1);
    Ok {| test_regression_rate := trr; compile_regression_rate := crr;
          test_progression_rate := tpr; compile_progression_rate := cpr |}.

(** ** Latency percentiles *)

Record LatencyStats : Type := {
  p50_latency_ms : Z;
  p90_latency_ms : Z;
  p99_latency_ms : Z
}.

Definition zero_latency : LatencyStats :=
  {| p50_latency_ms := 0; p90_latency_ms := 0; p99_latency_ms := 0 |}.

(** [getattr(state, "timestamp_ms", None)]. *)
Definition getattr_timestamp_ms (state : State) (default : PyVal) : PyVal :=
  match timestamp_ms state with
  | Some v => v
  | None => default
  end.

(** The body of [for i in range(1, len(states))], after the two states
    have been read. *)
Definition latency_body (prev_state curr_state : State) (latencies : list Z)
  : Result (list Z) :=
  let prev_ts := getattr_timestamp_ms prev_state PNone in
  let curr_ts := getattr_timestamp_ms curr_state PNone in
  if isinstance_int prev_ts && isinstance_int curr_ts then
    delta ← py_sub curr_ts prev_ts;
    if 0 <? delta then Ok (latencies ++ [delta])%list else Ok latencies
  else Ok latencies.

Definition latency_step (sts : list State) (i : nat) (latencies : list Z)
  : Result (list Z) :=
  prev_state ← index sts (i - 1);
  curr_state ← index sts i;
  latency_body prev_state curr_state latencies.

(** [int(n * 0.5)], [int(n * 0.9)] and [int(n * 0.99)]: the product is a
    binary64 number, truncated.  For the length of a list it is the integer
    quotient of [n * num] by [den] with [num / den] the decimal fraction. *)
Definition percentile_index (n : nat) (num den : Z) : nat :=
  Z.to_nat (Z.of_nat n * num / den).

(** The same index computed in binary64, with the operations of the
    floating-point specification of the standard library: the literal is the
    binary64 number nearest to [num / den], the length is converted and
    multiplied with rounding to nearest, and [int] truncates. *)
Definition binary64_of_Z (z : Z) : spec_float := binary_normalize 53 1024 z 0 false.

Definition binary64_literal (num den : Z) : spec_float :=
  SFdiv 53 1024 (binary64_of_Z num) (binary64_of_Z den).

Definition binary64_trunc (x : spec_float) : Z :=
  match x with
  | S754_finite s m e =>
      let v := if 0 <=? e then Zpos m * 2 ^ e else Zpos m / 2 ^ (- e) in
      if s then - v else v
  | _ => 0
  end.

Definition binary64_index (n : nat) (num den : Z) : nat :=
  Z.to_nat (binary64_trunc
              (SFmul 53 1024 (binary64_of_Z (Z.of_nat n)) (binary64_literal num den))).

Definition percentile_at (latencies : list Z) (n : nat) (num den : Z) : Result Z :=
  if (0 <? n)%nat then index latencies (percentile_index n num den) else Ok 0.

Definition _compute_latency_stats (episode : Episode) : Result LatencyStats :=
  if (length (states episode) <? 2)%nat then Ok zero_latency
  else
    let sts := sorted_by timestep (states episode) in
    latencies ← for_in (latency_step sts) (range 1 (length sts)) [];
    match latencies with
    | [] => Ok zero_latency
    | _ :: _ =>
        let latencies := sorted_by (fun d => d) latencies in
        let n := length latencies in
        p50 ← percentile_at latencies n 1 2;
        p90 ← percentile_at latencies n 9 10;
        p99 ← percentile_at latencies n 99 100;
        Ok {| p50_latency_ms := p50; p90_latency_ms := p90; p99_latency_ms := p99 |}
    end.

(** ** The world outside the module

    What the module reads from its process and from the network, with the
    outcome of each call: a value, or the exception the call raises. *)
Record World : Type := {
  (** [os.environ.get("DISABLE_TELEMETRY")] *)
  DISABLE_TELEMETRY : option string;
  (** [os.environ.get("CODEASSIST_VERSION", "unknown")], read at import *)
  CODEASSIST_VERSION : string;
  (** [datetime.now(timezone.utc).isoformat()] *)
  now_isoformat : string;
  (** [open(.../auth/userKeyMap.json)] followed by [json.load] *)
  load_user_key_map : Result PyVal;
  (** [requests.get("https://icanhazip.com/", timeout=1).text] *)
  icanhazip : Result string;
  (** [src.utils._load_problem] *)
  _load_problem : string -> Result PyVal
}.

(** Modelled from the spec: the output record [EpisodeSession] of
    src/api/datatypes.py, which is not among the sources: a flat record of
    the fields telemetry.py passes to its constructor, stored as given. *)
Record EpisodeSession : Type := {
  timestamp : string;
  duration_ms : Z;
  total_turns : Z;
  user_id : PyVal;
  question_id : PyVal;
  ip_addr : option string;
  codeassist_version : string;
  success : PyVal;
  time_to_pass : option Z;
  turns_to_pass : option Z;
  session_test_regression_rate : Q;
  session_compile_regression_rate : Q;
  session_test_progression_rate : Q;
  session_compile_progression_rate : Q;
  session_p50_latency_ms : Z;
  session_p90_latency_ms : Z;
  session_p99_latency_ms : Z;
  assistant_noop_count : Z;
  assistant_fill_partial_count : Z;
  assistant_write_single_count : Z;
  assistant_write_multi_count : Z;
  assistant_edit_existing_count : Z;
  assistant_explain_single_count : Z;
  assistant_explain_multi_count : Z;
  human_noop_count : Z;
  human_fill_partial_count : Z;
  human_write_single_count : Z;
  human_write_multi_count : Z;
  human_edit_existing_count : Z;
  human_explain_single_count : Z;
  human_explain_multi_count : Z;
  session_episode_id : string
}.

(** [str.lower] on ASCII letters. *)
Definition ascii_lower (c : ascii) : ascii :=
  let n := nat_of_ascii c in
  if ((65 <=? n)%nat && (n <=? 90)%nat) then ascii_of_nat (n + 32) else c.

Fixpoint lower (s : string) : string :=
  match s with
  | EmptyString => EmptyString
  | String c s' => String (ascii_lower c) (lower s')
  end.

Definition is_telemetry_disabled (w : World) : bool :=
  let v := lower (match DISABLE_TELEMETRY w with Some s => s | None => "false" end) in
  String.eqb v "true" || String.eqb v "1" || String.eqb v "yes".

Definition get_user_id (w : World) : Result PyVal :=
  user_key_map ← load_user_key_map w;
  match user_key_map with
  | PDict d =>
      match d with
      | (key, _) :: _ =>
          entry ← py_getitem user_key_map key;
          user ← py_getitem entry "user";
          py_getitem user "accountAddress"
      | [] => Ok (PStr "unknown")
      end
  | _ => Raise AttributeError
  end.

Definition _load_problem_question_id (w : World) (problem_id : string) : Result PyVal :=
  problem ← _load_problem w problem_id;
  if truthy problem then
    question_id ← py_get problem "question_id" PNone;
    if isinstance_int question_id then Ok question_id else Ok PNone
  else Ok PNone.

(** [state.env.get("compiled", False) and
     state.env.get("tests", {}).get("passed", 0) > 0]. *)
Definition passes (state : State) : Result PyVal :=
  py_and (env_compiled state)
         (tests_passed ← env_tests_passed state;
          gt ← py_gt tests_passed (PInt 0);
          Ok (PBool gt)).

(** The loop that looks for the first passing state; the result is
    [(time_to_pass, turns_to_pass)]. *)
Fixpoint find_first_pass (sts : list State) (start : Z)
  : Result (option Z * option Z) :=
  match sts with
  | [] => Ok (None, None)
  | state :: rest =>
      cond ← passes state;
      if truthy cond then
        ts ← py_int (getattr_timestamp_ms state (PInt 0));
        Ok (Some (Z.max 0 (ts - start)), Some (timestep state))
      else find_first_pass rest start
  end.

(** [counts[k]] on a dict. *)
Definition counts_getitem (counts : gmap ActionIndex Z) (k : ActionIndex) : Result Z :=
  match counts !! k with
  | Some n => Ok n
  | None => Raise KeyError
  end.

Section Telemetry.

(** The value of each member of [ActionIndex]: the enumeration is declared
    in src/api/datatypes.py, outside the sources, so the values are left
    open. *)
Variable member_value : ActionIndex -> PyVal.

(** [ActionIndex(value)]: the member with that value, [ValueError] when
    there is none. *)
Definition ActionIndex_call (value : PyVal) : Result ActionIndex :=
  match List.find (fun k => py_eqb (member_value k) value) ActionIndex_members with
  | Some k => Ok k
  | None => Raise ValueError
  end.

Definition caught_ValueError_TypeError (e : exn) : bool :=
  match e with
  | ValueError | TypeError => true
  | _ => false
  end.

Definition distance_tracked (k : ActionIndex) : bool :=
  bool_decide (k ∈ [EDIT_EXISTING_LINES; EXPLAIN_SINGLE_LINES; EXPLAIN_MULTI_LINE]).

(** [state.action.get("A").get("type") if is_assistant
     else state.action.get("H").get("type")]. *)
Definition extract_action_type (act : list (string * PyVal)) (is_assistant : bool)
  : Result PyVal :=
  if is_assistant then py_get (dict_get act "A" PNone) "type" PNone
  else py_get (dict_get act "H" PNone) "type" PNone.

(** The body of the [try] block. *)
Definition classify_action (state : State) (is_assistant : bool) (action_type : PyVal)
  : Run unit :=
  action_enum ← lift (ActionIndex_call action_type);
  _ ← (if is_assistant then incr_assistant action_enum else incr_human action_enum);
  if distance_tracked action_enum then
    distance ← lift (_calculate_cursor_distance state);
    if decide (action_enum = EDIT_EXISTING_LINES) then append_edit_existing distance
    else if decide (action_enum = EXPLAIN_SINGLE_LINES) then append_explain_single distance
    else if decide (action_enum = EXPLAIN_MULTI_LINE) then append_explain_multi distance
    else mret tt
  else mret tt.

(** The body of [for state in episode.states]. *)
Definition classify_state (state : State) : Run unit :=
  match action state with
  | None => mret tt
  | Some act =>
      let is_assistant := _is_assistant_action (Some act) in
      action_type ← lift (extract_action_type act is_assistant);
      run_try (classify_action state is_assistant action_type)
              caught_ValueError_TypeError
  end.

Definition _compute_action_statistics (episode : Episode) : Result ActionStats :=
  match run_for classify_state (states episode) initial_stats with
  | (s, Ok _) => Ok s
  | (_, Raise e) => Raise e
  end.

Definition convert_episode_session_to_telemetry_event (w : World) (episode : Episode)
  : Result EpisodeSession :=
  let timestamp := now_isoformat w in
  let duration_ms := end_time episode - start_time episode in
  let total_turns := Z.of_nat (length (states episode)) in
  user_id ← get_user_id w;
  question_id ← _load_problem_question_id w (problem_id episode);
  let ip_addr := match icanhazip w with Ok ip => Some ip | Raise _ => None end in
  let final_state :=
    match states episode with
    | s :: rest => Some (max_by timestep s rest)
    | [] => None
    end in
  '(success, (time_to_pass, turns_to_pass)) ←
    match final_state with
    | Some final_state =>
        let compiled := env_compiled final_state in
        tests_passed ← env_tests_passed final_state;
        success ← py_and compiled (gt ← py_gt tests_passed (PInt 0); Ok (PBool gt));
        pass ← find_first_pass (sorted_by timestep (states episode)) (start_time episode);
        Ok (success, pass)
    | None => Ok (PBool false, (None, None))
    end;
  action_stats ← _compute_action_statistics episode;
  regression_rates ← _compute_regression_rates episode;
  latency_stats ← _compute_latency_stats episode;
  let assistant_actions := assistant_actions action_stats in
  let human_actions := human_actions action_stats in
  a0 ← counts_getitem assistant_actions NO_OP;
  a1 ← counts_getitem assistant_actions FILL_PARTIAL_LINE;
  a2 ← counts_getitem assistant_actions REPLACE_AND_APPEND_SINGLE_LINE;
  a3 ← counts_getitem assistant_actions REPLACE_AND_APPEND_MULTI_LINE;
  a4 ← counts_getitem assistant_actions EDIT_EXISTING_LINES;
  a5 ← counts_getitem assistant_actions EXPLAIN_SINGLE_LINES;
  a6 ← counts_getitem assistant_actions EXPLAIN_MULTI_LINE;
  h0 ← counts_getitem human_actions NO_OP;
  h1 ← counts_getitem human_actions FILL_PARTIAL_LINE;
  h2 ← counts_getitem human_actions REPLACE_AND_APPEND_SINGLE_LINE;
  h3 ← counts_getitem human_actions REPLACE_AND_APPEND_MULTI_LINE;
  h4 ← counts_getitem human_actions EDIT_EXISTING_LINES;
  h5 ← counts_getitem human_actions EXPLAIN_SINGLE_LINES;
  h6 ← counts_getitem human_actions EXPLAIN_MULTI_LINE;
  Ok {| timestamp := timestamp;
        duration_ms := duration_ms;
        total_turns := total_turns;
        user_id := user_id;
        question_id := question_id;
        ip_addr := ip_addr;
        codeassist_version := CODEASSIST_VERSION w;
        success := success;
        time_to_pass := time_to_pass;
        turns_to_pass := turns_to_pass;
        session_test_regression_rate := test_regression_rate regression_rates;
        session_compile_regression_rate := compile_regression_rate regression_rates;
        session_test_progression_rate := test_progression_rate regression_rates;
        session_compile_progression_rate := compile_progression_rate regression_rates;
        session_p50_latency_ms := p50_latency_ms latency_stats;
        session_p90_latency_ms := p90_latency_ms latency_stats;
        session_p99_latency_ms := p99_latency_ms latency_stats;
        assistant_noop_count := a0;
        assistant_fill_partial_count := a1;
        assistant_write_single_count := a2;
        assistant_write_multi_count := a3;
        assistant_edit_existing_count := a4;
        assistant_explain_single_count := a5;
        assistant_explain_multi_count := a6;
        human_noop_count := h0;
        human_fill_partial_count := h1;
        human_write_single_count := h2;
        human_write_multi_count := h3;
        human_edit_existing_count := h4;
        human_explain_single_count := h5;
        human_explain_multi_count := h6;
        session_episode_id := episode_id episode |}.

(** [requests.post(...)] followed by [raise_for_status()]: the transport
    gives a status code or raises; a 4xx or 5xx status raises [HTTPError]. *)
Definition post_and_check (telemetry_post : EpisodeSession -> Result Z)
    (episode_session : EpisodeSession) : Result unit :=
  code ← telemetry_post episode_session;
  if (400 <=? code) && (code <? 600) then Raise HTTPError else Ok tt.

Definition push_telemetry_event_session (w : World)
    (telemetry_post : EpisodeSession -> Result Z) (episode : Episode) : Result unit :=
  if is_telemetry_disabled w then Ok tt
  else
    episode_session ← convert_episode_session_to_telemetry_event w episode;
    try_except (post_and_check telemetry_post episode_session)
               (fun _ => true) (fun _ => Ok tt).

End Telemetry.

(** ** Vocabulary of the properties *)

(** A state counts as classified when it has an action, the type field of
    its tagged branch can be read and [ActionIndex] accepts the value. *)
Definition classified (member_value : ActionIndex -> PyVal) (state : State) : bool :=
  match action state with
  | None => false
  | Some act =>
      match extract_action_type act (_is_assistant_action (Some act)) with
      | Ok action_type =>
          match ActionIndex_call member_value action_type with
          | Ok _ => true
          | Raise _ => false
          end
      | Raise _ => false
      end
  end.

(** A state whose action, when there is one, has a tagged branch with a
    [get] method: the type field can be read. *)
Definition readable (state : State) : bool :=
  match action state with
  | None => true
  | Some act =>
      match extract_action_type act (_is_assistant_action (Some act)) with
      | Ok _ => true
      | Raise _ => false
      end
  end.

(** The sum of all entries of a count mapping. *)
Definition counts_total (counts : gmap ActionIndex Z) : Z :=
  map_fold (fun _ n acc => n + acc) 0 counts.

(** A count mapping is complete when every kind has an entry. *)
Definition complete (counts : gmap ActionIndex Z) : Prop :=
  forall k, is_Some (counts !! k).

(** The two mappings of an accumulator are complete and add up to [n]. *)
Definition counted (s : ActionStats) (n : Z) : Prop :=
  complete (assistant_actions s) /\ complete (human_actions s) /\
  counts_total (assistant_actions s) + counts_total (human_actions s) = n.

(** An attribution entry that gives no cursor line: not a record, a record
    without a cursor, a cursor that is not a record, or a cursor record with
    neither a line nor a character offset. *)
Definition gives_no_cursor (attr : PyVal) : bool :=
  match attr with
  | PDict d =>
      match dict_lookup "cursor" d with
      | Some (PDict c) =>
          negb (bool_decide (is_Some (dict_lookup "line" c))) &&
          negb (bool_decide (is_Some (dict_lookup "char" c)))
      | Some _ => true
      | None => true
      end
  | _ => true
  end.

(** A state whose [env] gives a number for the count of passed tests. *)
Definition numeric_tests (state : State) : bool :=
  match env_tests_passed state with
  | Ok v => bool_decide (is_Some (as_number v))
  | Raise _ => false
  end.

(** The consecutive pairs of the stored states, in stored order. *)
Fixpoint transitions (sts : list State) : list (State * State) :=
  match sts with
  | prev :: (curr :: _) as rest => (prev, curr) :: transitions rest
  | _ => []
  end.

Definition is_compile_regression (t : State * State) : bool :=
  truthy (env_compiled t.1) && negb (truthy (env_compiled t.2)).

Definition is_compile_progression (t : State * State) : bool :=
  negb (truthy (env_compiled t.1)) && truthy (env_compiled t.2).

(** A comparison that was evaluated and holds. *)
Definition holds (r : Result bool) : bool :=
  match r with
  | Ok true => true
  | _ => false
  end.

(** The count of passed tests strictly decreases, respectively increases. *)
Definition is_test_regression (t : State * State) : bool :=
  match env_tests_passed t.1, env_tests_passed t.2 with
  | Ok prev, Ok curr => holds (py_lt curr prev)
  | _, _ => false
  end.

Definition is_test_progression (t : State * State) : bool :=
  match env_tests_passed t.1, env_tests_passed t.2 with
  | Ok prev, Ok curr => holds (py_gt curr prev)
  | _, _ => false
  end.

Definition count_where {A} (p : A -> bool) (l : list A) : Z :=
  Z.of_nat (length (List.filter p l)).

(** The counters [c'] are the counters [c] plus the given increments. *)
Definition advanced (c c' : RegressionCounters) (d_tr d_cr d_tp d_cp d_n : Z) : Prop :=
  test_regressions c' = test_regressions c + d_tr /\
  compile_regressions c' = compile_regressions c + d_cr /\
  test_progressions c' = test_progressions c + d_tp /\
  compile_progressions c' = compile_progressions c + d_cp /\
  total_transitions c' = total_transitions c + d_n.

(** [count / max(1, transitions)] as a rational. *)
Definition rate_of (count transitions : Z) : Q :=
  (inject_Z count / inject_Z (Z.max 1 transitions))%Q.

(** The loop over [range(1, len(l))] reads [l[i - 1]] and [l[i]]: it visits
    the consecutive pairs. *)
Fixpoint fold_pairs {A S} (body : A -> A -> S -> Result S) (l : list A) (s : S)
  : Result S :=
  match l with
  | prev :: (curr :: _) as rest => s' ← body prev curr s; fold_pairs body rest s'
  | _ => Ok s
  end.

(** ** Concrete inputs *)

(** Member values spelled like the type string of the spec's scenario. *)
Definition snake_case_value (k : ActionIndex) : PyVal :=
  PStr match k with
       | NO_OP => "no_op"
       | FILL_PARTIAL_LINE => "fill_partial_line"
       | REPLACE_AND_APPEND_SINGLE_LINE => "replace_and_append_single_line"
       | REPLACE_AND_APPEND_MULTI_LINE => "replace_and_append_multi_line"
       | EDIT_EXISTING_LINES => "edit_existing_lines"
       | EXPLAIN_SINGLE_LINES => "explain_single_lines"
       | EXPLAIN_MULTI_LINE => "explain_multi_line"
       end.

Definition env_of (compiled : bool) (passed : Z) : list (string * PyVal) :=
  [("compiled", PBool compiled); ("tests", PDict [("passed", PInt passed)])].

Definition episode_of (start : Z) (sts : list State) : Episode :=
  {| episode_id := "episode-1"; problem_id := "two-sum";
     start_time := start; end_time := start + 1000; states := sts |}.

(** A world in which every lookup answers. *)
Definition answering_world : World :=
  {| DISABLE_TELEMETRY := None;
     CODEASSIST_VERSION := "unknown";
     now_isoformat := "2025-01-01T00:00:00+00:00";
     load_user_key_map :=
       Ok (PDict [("key", PDict [("user", PDict [("accountAddress", PStr "0xabc")])])]);
     icanhazip := Ok "203.0.113.7";
     _load_problem := fun _ => Ok (PDict [("question_id", PInt 1)]) |}.

(** The same world with an identity file that cannot be opened. *)
Definition unreadable_identity_world : World :=
  {| DISABLE_TELEMETRY := DISABLE_TELEMETRY answering_world;
     CODEASSIST_VERSION := CODEASSIST_VERSION answering_world;
     now_isoformat := now_isoformat answering_world;
     load_user_key_map := Raise OSError;
     icanhazip := icanhazip answering_world;
     _load_problem := _load_problem answering_world |}.

(** The state of the spec's cursor scenario: the assistant edits line 10
    while the cursor is on line 7. *)
Definition edit_scenario_state : State :=
  {| timestep := 0;
     timestamp_ms := Some (PInt 0);
     action := Some [("A", PDict [("type", PStr "edit_existing_lines");
                                  ("target_line", PInt 10)])];
     attribution := [PDict [("cursor", PDict [("line", PInt 7)])]];
     env := env_of false 0 |}.

(** A state whose action has no tagged branch, and one whose assistant
    branch is not a record. *)
Definition untagged_action_state : State :=
  {| timestep := 0; timestamp_ms := Some (PInt 0);
     action := Some [("type", PStr "no_op")];
     attribution := []; env := env_of false 0 |}.

Definition scalar_branch_state : State :=
  {| timestep := 0; timestamp_ms := Some (PInt 0);
     action := Some [("A", PStr "no_op")];
     attribution := []; env := env_of false 0 |}.

(** A passing state with a given [timestamp_ms] attribute. *)
Definition passing_state (ts : option PyVal) : State :=
  {| timestep := 0; timestamp_ms := ts; action := None;
     attribution := []; env := env_of true 1 |}.

(** The three states of the spec's outcome scenario. *)
Definition scenario_state (t ts : Z) (compiled : bool) (passed : Z)
    (attr : list PyVal) : State :=
  {| timestep := t; timestamp_ms := Some (PInt ts); action := None;
     attribution := attr; env := env_of compiled passed |}.

Definition scenario_states (a0 a1 a2 : list PyVal) : list State :=
  [scenario_state 0 0 false 0 a0; scenario_state 1 100 true 0 a1;
   scenario_state 2 250 true 1 a2].

(** Attribution entries without a usable cursor: a number, a record
    without a cursor, a cursor that is a string, and a cursor record with a
    column only; and an entry with the cursor on line 7. *)
Definition unusable_entries : list PyVal :=
  [PInt 3; PDict [("author", PStr "human")]; PDict [("cursor", PStr "7")];
   PDict [("cursor", PDict [("column", PInt 2)])]].

Definition cursor_on_line_7 : PyVal := PDict [("cursor", PDict [("line", PInt 7)])].

(** A human action of a kind [ActionIndex] does not know, and a state
    without action. *)
Definition unknown_kind_state : State :=
  {| timestep := 1; timestamp_ms := Some (PInt 40);
     action := Some [("H", PDict [("type", PStr "teleport")])];
     attribution := []; env := env_of false 0 |}.

Definition idle_state : State :=
  {| timestep := 2; timestamp_ms := Some (PInt 90); action := None;
     attribution := []; env := env_of true 1 |}.

Definition mixed_states : list State :=
  [edit_scenario_state; unknown_kind_state; idle_state].

(** Four states, stored out of order, 10, 30 and 60 milliseconds apart. *)
Definition latency_sample_states : list State :=
  [scenario_state 2 40 true 0 []; scenario_state 0 0 false 0 [];
   scenario_state 3 100 true 1 []; scenario_state 1 10 false 0 []].

(** ** [_compute_percentile]

    The function is not called by the pipeline.  Its data are floats; as
    for the rates, the rational numbers themselves are kept, so that the
    interpolation below is exact where Python rounds to binary64.

    [statistics.quantiles] and the list index raise [StatisticsError] and
    [IndexError], which are the two exceptions the function catches: they
    are the [None] of the option monad here. *)

(** [sorted(data)] on numbers. *)
Fixpoint insert_Q (x : Q) (l : list Q) : list Q :=
  match l with
  | [] => [x]
  | y :: l' => if Qle_bool x y then x :: l else y :: insert_Q x l'
  end.

Fixpoint sorted_Q (l : list Q) : list Q :=
  match l with
  | [] => []
  | x :: l' => insert_Q x (sorted_Q l')
  end.

(** The [i]-th cut point of [statistics.quantiles(data, n=n)] with the
    default method, for sorted [data] with at least two points. *)
Definition quantile_cut (data : list Q) (n i : Z) : option Q :=
  let ld := Z.of_nat (length data) in
  let m := ld + 1 in
  let j := i * m / n in
  let j := if j <? 1 then 1 else if ld - 1 <? j then ld - 1 else j in
  let delta := i * m - j * n in
  lo ← data !! Z.to_nat (j - 1);
  hi ← data !! Z.to_nat j;
  Some ((lo * inject_Z (n - delta) + hi * inject_Z delta) / inject_Z n)%Q.

(** [statistics.quantiles(data, n=n)].  With fewer than two data points
    Python raises [StatisticsError]; from Python 3.13 on a single point is
    accepted and repeated [n - 1] times, which [repeats_single_point]
    selects. *)
Definition quantiles (repeats_single_point : bool) (data : list Q) (n : Z)
  : option (list Q) :=
  if n <? 1 then None
  else
    let data := sorted_Q data in
    let ld := length data in
    if (ld <? 2)%nat then
      if repeats_single_point && (ld =? 1)%nat
      then Some (concat (replicate (Z.to_nat (n - 1)) data))
      else None
    else mapM (quantile_cut data n) (Z.of_nat <$> seq 1 (Z.to_nat n - 1)).

(** [l[i]] for an index of either sign: a negative index counts from the
    end. *)
Definition py_list_getitem {A} (l : list A) (i : Z) : option A :=
  let len := Z.of_nat (length l) in
  if 0 <=? i then l !! Z.to_nat i
  else if - len <=? i then l !! Z.to_nat (len + i)
  else None.

(** [int(x)] on a float: truncation towards zero. *)
Definition int_of_Q (x : Q) : Z := Z.quot (Qnum x) (Zpos (Qden x)).

Definition _compute_percentile (repeats_single_point : bool) (data : list Q)
    (percentile : Q) : Q :=
  match data with
  | [] => 0%Q
  | _ :: _ =>
      match
        cuts ← quantiles repeats_single_point data 100;
        py_list_getitem cuts (int_of_Q percentile - 1)
      with
      | Some v => v
      | None => 0%Q
      end
  end.

(** ** Vocabulary of the further properties *)

(** The actor ([true] for the assistant) and the kind under which the
    classifier counts a state, when it counts it. *)
Definition classification (member_value : ActionIndex -> PyVal) (state : State)
  : option (bool * ActionIndex) :=
  match action state with
  | None => None
  | Some act =>
      match extract_action_type act (_is_assistant_action (Some act)) with
      | Ok action_type =>
          match ActionIndex_call member_value action_type with
          | Ok k => Some (_is_assistant_action (Some act), k)
          | Raise _ => None
          end
      | Raise _ => None
      end
  end.

Definition counted_as (member_value : ActionIndex -> PyVal) (actor : bool)
    (k : ActionIndex) (state : State) : bool :=
  bool_decide (classification member_value state = Some (actor, k)).

(** The distance a state adds to the list of kind [k]: the state is of that
    kind, whoever acted, and its cursor distance can be computed. *)
Definition recorded_distance (member_value : ActionIndex -> PyVal) (k : ActionIndex)
    (state : State) : option Z :=
  match classification member_value state with
  | Some (_, k') =>
      if decide (k' = k) then
        match _calculate_cursor_distance state with
        | Ok d => Some d
        | Raise _ => None
        end
      else None
  | None => None
  end.

(** The accumulators hold the counts [a] and [h] and the three lists. *)
Definition holding (s : ActionStats) (a h : ActionIndex -> Z) (e x1 x2 : list Z) : Prop :=
  (forall k, assistant_actions s !! k = Some (a k)) /\
  (forall k, human_actions s !! k = Some (h k)) /\
  edit_existing_distances s = e /\
  explain_single_distances s = x1 /\
  explain_multi_distances s = x2.


(** The cursor record of an attribution entry, when the entry is a record
    whose cursor is a record. *)
Definition cursor_of (attr : PyVal) : option (list (string * PyVal)) :=
  match attr with
  | PDict d =>
      match dict_lookup "cursor" d with
      | Some (PDict c) => Some c
      | _ => None
      end
  | _ => None
  end.

(** The latency between two consecutive states, when both have an integer
    timestamp and the later one is strictly larger. *)
Definition positive_delta (t : State * State) : option Z :=
  match as_number (getattr_timestamp_ms t.1 PNone),
        as_number (getattr_timestamp_ms t.2 PNone) with
  | Some prev_ts, Some curr_ts =>
      if 0 <? curr_ts - prev_ts then Some (curr_ts - prev_ts) else None
  | _, _ => None
  end.

(** The latencies of an episode: the positive deltas between the states
    that follow each other in the order of their timesteps. *)
Definition valid_deltas (sts : list State) : list Z :=
  omap positive_delta (transitions (sorted_by timestep sts)).

(** [p] is the largest number of [l]. *)
Definition is_max_of (p : Z) (l : list Z) : Prop :=
  p ∈ l /\ Forall (fun d => d <= p) l.

(** A state passes: it compiled and has more than 0 passed tests, as the
    pass condition of the assembler evaluates it. *)
Definition passing (state : State) : bool :=
  match passes state with
  | Ok v => truthy v
  | Raise _ => false
  end.

(** [max(episode.states, key=lambda s: s.timestep) if episode.states else
    None]. *)
Definition final_state_of (sts : list State) : option State :=
  match sts with
  | s :: rest => Some (max_by timestep s rest)
  | [] => None
  end.

(** A [timestamp_ms] that [int] accepts without parsing: absent, an integer
    or a bool. *)
Definition numeric_timestamp (state : State) : bool :=
  match timestamp_ms state with
  | None => true
  | Some v => bool_decide (is_Some (as_number v))
  end.

(** The world with another outcome of the IP lookup. *)
Definition with_icanhazip (w : World) (r : Result string) : World :=
  {| DISABLE_TELEMETRY := DISABLE_TELEMETRY w;
     CODEASSIST_VERSION := CODEASSIST_VERSION w;
     now_isoformat := now_isoformat w;
     load_user_key_map := load_user_key_map w;
     icanhazip := r;
     _load_problem := _load_problem w |}.


(** ** Concrete inputs of the further properties *)

(** An assistant edit whose cursor line is a string: the state is counted,
    and its distance cannot be computed. *)
Definition string_cursor_state : State :=
  {| timestep := 3; timestamp_ms := Some (PInt 120);
     action := Some [("A", PDict [("type", PStr "edit_existing_lines")])];
     attribution := [PDict [("cursor", PDict [("line", PStr "7")])]];
     env := env_of true 1 |}.

(** Cursor records with a line and an offset, with an offset of 170, and
    with an offset that is a string. *)
Definition cursor_line_and_offset : PyVal :=
  PDict [("cursor", PDict [("char", PInt 800); ("line", PInt 4)])].

Definition cursor_offset_170 : PyVal := PDict [("cursor", PDict [("char", PInt 170)])].

Definition cursor_offset_text : PyVal := PDict [("cursor", PDict [("char", PStr "170")])].

Definition text_offset_state : State :=
  {| timestep := 0; timestamp_ms := Some (PInt 0);
     action := Some [("A", PDict [("type", PStr "edit_existing_lines")])];
     attribution := unusable_entries ++ [cursor_offset_text; cursor_on_line_7];
     env := env_of false 0 |}.

(** An episode that passes at timestep 1 and has regressed at timestep 2. *)
Definition regressed_states : list State :=
  [scenario_state 0 10 false 0 []; scenario_state 1 25 true 2 [];
   scenario_state 2 70 true 0 []].

(** The latency sample with its first two states exchanged. *)
Definition latency_sample_swapped : list State :=
  [scenario_state 0 0 false 0 []; scenario_state 2 40 true 0 [];
   scenario_state 3 100 true 1 []; scenario_state 1 10 false 0 []].

(** A world with telemetry switched off and an unreadable identity file. *)
Definition switched_off_world : World :=
  {| DISABLE_TELEMETRY := Some "TRUE";
     CODEASSIST_VERSION := CODEASSIST_VERSION unreadable_identity_world;
     now_isoformat := now_isoformat unreadable_identity_world;
     load_user_key_map := load_user_key_map unreadable_identity_world;
     icanhazip := icanhazip unreadable_identity_world;
     _load_problem := _load_problem unreadable_identity_world |}.

(** An identity file whose first entry has no user record, before a
    complete entry. *)
Definition broken_first_entry_world : World :=
  {| DISABLE_TELEMETRY := None;
     CODEASSIST_VERSION := "unknown";
     now_isoformat := now_isoformat answering_world;
     load_user_key_map :=
       Ok (PDict [("first", PDict [("label", PStr "old")]);
                  ("second", PDict [("user", PDict [("accountAddress", PStr "0xabc")])])]);
     icanhazip := icanhazip answering_world;
     _load_problem := fun _ => Ok (PDict [("question_id", PStr "12")]) |}.

(** A collector that always answers 500, and one that cannot be reached. *)
Definition failing_post (_ : EpisodeSession) : Result Z := Ok 500.
Definition unreachable_post (_ : EpisodeSession) : Result Z := Raise RequestException.

Definition percentile_sample : list Q := [40; 10; 30; 20]%Q.

(** * Properties *)

(** ** Evaluation lemmas for the monads *)

Lemma zero_counts_lookup (k : ActionIndex) : zero_counts !! k = Some 0.
Proof. destruct k; reflexivity. Qed.

Lemma dict_incr_Ok (counts : gmap ActionIndex Z) (k : ActionIndex) (n : Z) :
  counts !! k = Some n -> dict_incr counts k = Ok (<[k := n + 1]> counts).
Proof. intros H. unfold dict_incr. rewrite H. reflexivity. Qed.

Section Properties.

Variable member_value : ActionIndex -> PyVal.

(** *** Cursor distance of the edit scenario *)

(** The target line is looked up in [state.action] itself, next to the
    tag ["A"], and not in the tagged branch that holds it: it is always the
    default 1 for a payload that carries [target_line] in its branch. *)
Lemma target_line_ignores_branch (state : State) (branch : PyVal) (line : PyVal) :
  action state = Some [("A", branch)] ->
  attribution state = [PDict [("cursor", PDict [("line", line)])]] ->
  _calculate_cursor_distance state =
    (if is_None line then Ok 0 else d ← py_sub (PInt 1) line; Ok (Z.abs d)).
Proof.
  intros Hact Hattr. unfold _calculate_cursor_distance.
  rewrite Hact, Hattr. reflexivity.
Qed.

(** In general the distance is the absolute difference between the
    [target_line] entry of [state.action], 1 when there is none, and the
    cursor line. *)
Lemma cursor_distance_formula (state : State) (act : list (string * PyVal))
    (target cursor : Z) :
  action state = Some act ->
  truthy (PDict act) = true ->
  as_number (dict_get act "target_line" (PInt 1)) = Some target ->
  _get_cursor_line_from_attribution (attribution state) = Ok (PInt cursor) ->
  _calculate_cursor_distance state = Ok (Z.abs (target - cursor)).
Proof.
  intros Hact Htruthy Htarget Hcursor. unfold _calculate_cursor_distance.
  rewrite Hact, Htruthy, Hcursor. cbn [negb mbind Result_bind is_None].
  unfold py_sub. rewrite Htarget. reflexivity.
Qed.

(** C1 (as the code runs it): for the payload
    [{"A": {"type": "edit_existing_lines", "target_line": 10}}] with
    attribution [[{"cursor": {"line": 7}}]] the classifier counts one
    assistant EDIT_EXISTING_LINES action, and the distance it appends to the
    EDIT_EXISTING_LINES list is 6, the distance from the default target 1,
    not 3. *)
Theorem edit_scenario_records_distance_six (episode : Episode) (state : State) :
  ActionIndex_call member_value (PStr "edit_existing_lines") = Ok EDIT_EXISTING_LINES ->
  action state = action edit_scenario_state ->
  attribution state = attribution edit_scenario_state ->
  states episode = [state] ->
  exists stats,
    _compute_action_statistics member_value episode = Ok stats /\
    edit_existing_distances stats = [6] /\
    explain_single_distances stats = [] /\
    explain_multi_distances stats = [] /\
    assistant_actions stats !! EDIT_EXISTING_LINES = Some 1 /\
    human_actions stats !! EDIT_EXISTING_LINES = Some 0.
Proof.
  intros Hcall Hact Hattr Hstates.
  assert (Hd : _calculate_cursor_distance state = Ok 6).
  { rewrite (target_line_ignores_branch state _ (PInt 7) Hact Hattr). reflexivity. }
  unfold _compute_action_statistics. rewrite Hstates.
  cbn [run_for]. unfold mbind, Run_bind, classify_state.
  rewrite Hact. cbn [edit_scenario_state action].
  unfold lift, run_try, classify_action, mbind, Run_bind, lift.
  cbn [_is_assistant_action dict_get dict_lookup String.eqb Ascii.eqb Bool.eqb
       is_None negb extract_action_type py_get].
  rewrite Hcall. unfold incr_assistant.
  rewrite (dict_incr_Ok _ _ 0) by apply zero_counts_lookup.
  cbn [distance_tracked]. rewrite Hd.
  eexists. split; [reflexivity|].
  cbn. repeat split; reflexivity.
Qed.

(** *** The reporting call *)


(** An exception of the identity lookup leaves the assembler, which has no
    handler around [get_user_id]. *)
Lemma convert_propagates_identity_failure (w : World) (episode : Episode) (e : exn) :
  get_user_id w = Raise e ->
  convert_episode_session_to_telemetry_event member_value w episode = Raise e.
Proof.
  intros H. unfold convert_episode_session_to_telemetry_event.
  rewrite H. reflexivity.
Qed.

(** C2 (as the code runs it): with telemetry enabled and an identity file
    that cannot be opened, [push_telemetry_event_session] raises the
    [OSError] of [open] to its caller, for every episode and whatever the
    transport would have answered. *)
Theorem push_raises_on_unreadable_identity
    (telemetry_post : EpisodeSession -> Result Z) (episode : Episode) :
  push_telemetry_event_session member_value unreadable_identity_world telemetry_post episode
  = Raise OSError.
Proof.
  unfold push_telemetry_event_session.
  change (is_telemetry_disabled unreadable_identity_world) with false.
  cbv iota.
  rewrite (convert_propagates_identity_failure _ _ OSError); reflexivity.
Qed.

(** *** States the classifier cannot read *)

(** A state whose type value [ActionIndex] rejects is skipped: the
    accumulators are left as they were and the loop goes on. *)
Lemma classify_state_unknown_type (state : State) (act : list (string * PyVal))
    (action_type : PyVal) (s : ActionStats) :
  action state = Some act ->
  extract_action_type act (_is_assistant_action (Some act)) = Ok action_type ->
  ActionIndex_call member_value action_type = Raise ValueError ->
  classify_state member_value state s = (s, Ok tt).
Proof.
  intros Hact Hty Hcall. unfold classify_state.
  rewrite Hact. unfold mbind, Run_bind, lift. rewrite Hty.
  unfold run_try, classify_action, mbind, Run_bind, lift.
  rewrite Hcall. reflexivity.
Qed.

(** The type field is read outside the [try] block: when the tagged branch
    is missing or is not a record, the [AttributeError] of [.get] ends the
    loop and leaves the classifier. *)
Lemma classify_state_unreadable_branch (state : State) (act : list (string * PyVal))
    (e : exn) (s : ActionStats) :
  action state = Some act ->
  extract_action_type act (_is_assistant_action (Some act)) = Raise e ->
  classify_state member_value state s = (s, Raise e).
Proof.
  intros Hact Hty. unfold classify_state.
  rewrite Hact. unfold mbind, Run_bind, lift. rewrite Hty. reflexivity.
Qed.

(** C3 (as the code runs it): a state with a non-null action whose tagged
    branch is missing, or whose assistant branch is a string instead of a
    record, is not skipped: the classifier raises [AttributeError], whatever
    states follow. *)
Theorem malformed_branch_raises (start : Z) (rest : list State) :
  _compute_action_statistics member_value
    (episode_of start (untagged_action_state :: rest)) = Raise AttributeError /\
  _compute_action_statistics member_value
    (episode_of start (scalar_branch_state :: rest)) = Raise AttributeError.
Proof.
  split; unfold _compute_action_statistics; cbn [episode_of states run_for];
    unfold mbind at 1, Run_bind at 1.
  - rewrite (classify_state_unreadable_branch untagged_action_state _
               AttributeError initial_stats eq_refl eq_refl).
    reflexivity.
  - rewrite (classify_state_unreadable_branch scalar_branch_state _
               AttributeError initial_stats eq_refl eq_refl).
    reflexivity.
Qed.

(** *** Time to pass *)

(** A state without a [timestamp_ms] attribute takes the default of
    [getattr]: its timestamp is 0. *)
Lemma find_first_pass_missing_timestamp (start : Z) (rest : list State) :
  find_first_pass (passing_state None :: rest) start
  = Ok (Some (Z.max 0 (0 - start)), Some 0).
Proof. reflexivity. Qed.

(** C4 (as the code runs it): when the first passing state has a null
    [timestamp_ms], [int(None)] raises [TypeError] and no record is
    assembled; a non-numeric string raises [ValueError].  The timestamp is
    not treated as 0. *)
Theorem null_timestamp_raises_in_time_to_pass (start : Z) :
  convert_episode_session_to_telemetry_event member_value answering_world
    (episode_of start [passing_state (Some PNone)]) = Raise TypeError /\
  convert_episode_session_to_telemetry_event member_value answering_world
    (episode_of start [passing_state (Some (PStr "soon"))]) = Raise ValueError.
Proof. split; reflexivity. Qed.

(** *** The empty episode *)

(** C5: for an episode with no states, the assembled record has
    [total_turns = 0], the four rates 0.0, the three percentiles 0,
    [success] false and both [time_to_pass] and [turns_to_pass] null; and
    the record is assembled whenever the identity and dataset lookups
    answer. *)
Theorem empty_episode_record (w : World) (episode : Episode) :
  states episode = [] ->
  (forall session,
     convert_episode_session_to_telemetry_event member_value w episode = Ok session ->
     total_turns session = 0 /\
     (session_test_regression_rate session == 0)%Q /\
     (session_compile_regression_rate session == 0)%Q /\
     (session_test_progression_rate session == 0)%Q /\
     (session_compile_progression_rate session == 0)%Q /\
     session_p50_latency_ms session = 0 /\
     session_p90_latency_ms session = 0 /\
     session_p99_latency_ms session = 0 /\
     success session = PBool false /\
     time_to_pass session = None /\
     turns_to_pass session = None) /\
  (forall u q,
     get_user_id w = Ok u ->
     _load_problem_question_id w (problem_id episode) = Ok q ->
     exists session,
       convert_episode_session_to_telemetry_event member_value w episode = Ok session).
Proof.
  intros Hstates. destruct episode as [eid pid t0 t1 sts].
  cbn [states problem_id] in *. subst sts.
  unfold convert_episode_session_to_telemetry_event.
  cbn [states problem_id start_time end_time episode_id].
  split.
  - intros session.
    destruct (get_user_id w) as [u|e]; [|discriminate].
    destruct (_load_problem_question_id w pid) as [q|e]; [|discriminate].
    intros [= <-]. cbn. repeat split; reflexivity.
  - intros u q -> ->. eexists. reflexivity.
Qed.

(** *** The outcome scenario *)

(** C6: for the three states with timesteps 0, 1, 2, timestamps 0, 100, 250,
    [compiled] false, true, true and 0, 0, 1 passed tests, the record has
    compile and test progression rates 0.5, [success] true,
    [turns_to_pass = 2], and [time_to_pass] is 250 less the start time,
    floored at 0: 250 for the episode that starts at time 0, where the
    scenario's timestamps start. *)
Theorem outcome_scenario_record (w : World) (episode : Episode)
    (a0 a1 a2 : list PyVal) (u q : PyVal) :
  states episode = scenario_states a0 a1 a2 ->
  get_user_id w = Ok u ->
  _load_problem_question_id w (problem_id episode) = Ok q ->
  exists session,
    convert_episode_session_to_telemetry_event member_value w episode = Ok session /\
    (session_compile_progression_rate session == 1 # 2)%Q /\
    (session_test_progression_rate session == 1 # 2)%Q /\
    success session = PBool true /\
    turns_to_pass session = Some 2 /\
    time_to_pass session = Some (Z.max 0 (250 - start_time episode)) /\
    (start_time episode = 0 -> time_to_pass session = Some 250).
Proof.
  intros Hstates Hu Hq. destruct episode as [eid pid t0 t1 sts].
  cbn [states problem_id start_time] in *. subst sts.
  unfold convert_episode_session_to_telemetry_event.
  cbn [states problem_id start_time end_time episode_id].
  rewrite Hu, Hq. eexists. split; [reflexivity|].
  cbn [session_compile_progression_rate session_test_progression_rate success
       turns_to_pass time_to_pass].
  repeat split; try reflexivity.
  intros ->. reflexivity.
Qed.

(** *** Resolving the cursor line *)

Lemma dict_contains_lookup (d : list (string * PyVal)) (k : string) :
  dict_contains (PDict d) k = bool_decide (is_Some (dict_lookup k d)).
Proof. reflexivity. Qed.

Lemma py_getitem_lookup (d : list (string * PyVal)) (k : string) (v : PyVal) :
  dict_lookup k d = Some v -> py_getitem (PDict d) k = Ok v.
Proof. intros H. unfold py_getitem. rewrite H. reflexivity. Qed.

Lemma scan_attribution_skips (attr : PyVal) (rest : list PyVal) :
  gives_no_cursor attr = true ->
  scan_attribution (attr :: rest) = scan_attribution rest.
Proof.
  intros H. destruct attr as [| | | | |d]; try reflexivity.
  cbn [scan_attribution isinstance_dict andb].
  rewrite dict_contains_lookup. cbn [gives_no_cursor] in H.
  destruct (dict_lookup "cursor" d) as [cursor_info|] eqn:Hcursor;
    [|rewrite bool_decide_eq_false_2 by (intros [? [=]]); reflexivity].
  rewrite bool_decide_eq_true_2 by eauto.
  rewrite (py_getitem_lookup _ _ _ Hcursor). cbn [mbind Result_bind].
  destruct cursor_info as [| | | | |c]; try reflexivity.
  cbn [isinstance_dict andb]. rewrite !dict_contains_lookup.
  apply andb_prop in H as [Hline Hchar].
  apply negb_true_iff in Hline, Hchar. rewrite Hline, Hchar. reflexivity.
Qed.

Lemma get_cursor_line_is_scan (attribution : list PyVal) :
  _get_cursor_line_from_attribution attribution = scan_attribution attribution.
Proof. destruct attribution; reflexivity. Qed.

Lemma scan_attribution_skips_prefix (skipped rest : list PyVal) :
  Forall (fun attr => gives_no_cursor attr = true) skipped ->
  scan_attribution (skipped ++ rest) = scan_attribution rest.
Proof.
  induction 1 as [|attr skipped Hattr _ IH]; [reflexivity|].
  rewrite <- app_comm_cons, scan_attribution_skips by assumption. exact IH.
Qed.

Lemma distance_without_cursor (state : State) :
  _get_cursor_line_from_attribution (attribution state) = Ok PNone ->
  _calculate_cursor_distance state = Ok 0.
Proof.
  intros H. unfold _calculate_cursor_distance.
  destruct (action state) as [act|]; [|reflexivity].
  destruct (negb (truthy (PDict act))); [reflexivity|].
  rewrite H. reflexivity.
Qed.

(** C10: attribution entries that are not records, that have no cursor,
    whose cursor is not a record, or whose cursor record has neither a line
    nor a character offset are passed over, and the scan goes on with the
    entries behind them; when every entry is of that kind the cursor line is
    [None], the distance is 0 and nothing is raised. *)
Theorem cursor_scan_skips_unusable_entries (skipped rest : list PyVal) :
  Forall (fun attr => gives_no_cursor attr = true) skipped ->
  _get_cursor_line_from_attribution (skipped ++ rest)
    = _get_cursor_line_from_attribution rest /\
  _get_cursor_line_from_attribution skipped = Ok PNone /\
  (forall state, attribution state = skipped ->
                 _calculate_cursor_distance state = Ok 0).
Proof.
  intros Hskipped.
  assert (Hnone : _get_cursor_line_from_attribution skipped = Ok PNone).
  { rewrite get_cursor_line_is_scan.
    rewrite <- (app_nil_r skipped), scan_attribution_skips_prefix by assumption.
    reflexivity. }
  split; [|split].
  - rewrite !get_cursor_line_is_scan. apply scan_attribution_skips_prefix, Hskipped.
  - exact Hnone.
  - intros state Hattr. apply distance_without_cursor. rewrite Hattr. exact Hnone.
Qed.

(** *** The count mappings *)

Lemma ActionIndex_members_all (k : ActionIndex) : k ∈ ActionIndex_members.
Proof. destruct k; unfold ActionIndex_members; set_solver. Qed.

Lemma zero_counts_complete : complete zero_counts.
Proof. intros k. rewrite zero_counts_lookup. eauto. Qed.

Lemma zero_counts_total : counts_total zero_counts = 0.
Proof. reflexivity. Qed.

Lemma counts_total_incr (counts : gmap ActionIndex Z) (k : ActionIndex) (n : Z) :
  counts !! k = Some n ->
  counts_total (<[k := n + 1]> counts) = counts_total counts + 1.
Proof.
  intros Hk. unfold counts_total.
  rewrite <- (insert_delete_eq counts k (n + 1)).
  rewrite map_fold_insert_L; [|intros; lia|apply lookup_delete_eq].
  rewrite (map_fold_delete_L _ 0 k n counts); [lia|intros; lia|exact Hk].
Qed.

Lemma complete_incr (counts : gmap ActionIndex Z) (k : ActionIndex) (n : Z) :
  complete counts -> complete (<[k := n]> counts).
Proof.
  intros Hc j. destruct (decide (k = j)) as [->|Hne].
  - rewrite lookup_insert_eq. eauto.
  - rewrite lookup_insert_ne by assumption. apply Hc.
Qed.

Lemma incr_assistant_counted (k : ActionIndex) (s : ActionStats) (n : Z) :
  counted s n ->
  exists s', incr_assistant k s = (s', Ok tt) /\ counted s' (n + 1).
Proof.
  intros (Ha & Hh & Hn). unfold incr_assistant.
  destruct (Ha k) as [c Hc]. rewrite (dict_incr_Ok _ _ _ Hc).
  eexists. split; [reflexivity|]. unfold counted. cbn.
  rewrite (counts_total_incr _ _ _ Hc).
  split; [apply complete_incr, Ha|]. split; [exact Hh|lia].
Qed.

Lemma incr_human_counted (k : ActionIndex) (s : ActionStats) (n : Z) :
  counted s n ->
  exists s', incr_human k s = (s', Ok tt) /\ counted s' (n + 1).
Proof.
  intros (Ha & Hh & Hn). unfold incr_human.
  destruct (Hh k) as [c Hc]. rewrite (dict_incr_Ok _ _ _ Hc).
  eexists. split; [reflexivity|]. unfold counted. cbn.
  rewrite (counts_total_incr _ _ _ Hc).
  split; [exact Ha|]. split; [apply complete_incr, Hh|lia].
Qed.

(** What follows the increment in the [try] block only appends to the
    distance lists: the mappings are those left by the increment, whether
    the distance is appended or its computation is abandoned. *)
Lemma record_distance_counted (state : State) (action_enum : ActionIndex)
    (s s' : ActionStats) (r : Result unit) (n : Z) :
  counted s n ->
  (if distance_tracked action_enum then
     distance ← lift (_calculate_cursor_distance state);
     if decide (action_enum = EDIT_EXISTING_LINES) then append_edit_existing distance
     else if decide (action_enum = EXPLAIN_SINGLE_LINES) then append_explain_single distance
     else if decide (action_enum = EXPLAIN_MULTI_LINE) then append_explain_multi distance
     else mret tt
   else mret tt) s = (s', r) ->
  counted s' n.
Proof.
  intros Hs. destruct (distance_tracked action_enum).
  - unfold mbind, Run_bind, lift.
    destruct (_calculate_cursor_distance state) as [distance|e].
    + repeat case_decide; intros [= <- <-]; exact Hs.
    + intros [= <- <-]; exact Hs.
  - intros [= <- <-]; exact Hs.
Qed.

Lemma classify_state_counted (state : State) (s s' : ActionStats) (n : Z) :
  counted s n ->
  classify_state member_value state s = (s', Ok tt) ->
  counted s' (n + if classified member_value state then 1 else 0).
Proof.
  intros Hs. unfold classify_state, classified.
  destruct (action state) as [act|].
  2:{ intros [= <-]. rewrite Z.add_0_r. exact Hs. }
  unfold mbind at 1, Run_bind at 1, lift at 1.
  destruct (extract_action_type act (_is_assistant_action (Some act)))
    as [action_type|e]; [|discriminate].
  unfold run_try, classify_action.
  unfold mbind at 1, Run_bind at 1, lift at 1.
  destruct (ActionIndex_call member_value action_type) as [action_enum|e].
  - unfold mbind at 1, Run_bind at 1.
    assert (Hincr : exists s1,
      (if _is_assistant_action (Some act)
       then incr_assistant action_enum else incr_human action_enum) s
      = (s1, Ok tt) /\ counted s1 (n + 1)).
    { destruct (_is_assistant_action (Some act));
        [apply incr_assistant_counted|apply incr_human_counted]; exact Hs. }
    destruct Hincr as (s1 & -> & Hs1).
    match goal with
    | |- context [?m s1] =>
        destruct (m s1) as [s2 r] eqn:Hrest
    end.
    apply (record_distance_counted _ _ _ _ _ _ Hs1) in Hrest.
    destruct r as [[]|e]; [intros [= <-]; exact Hrest|].
    destruct (caught_ValueError_TypeError e); [intros [= <-]; exact Hrest|discriminate].
  - destruct (caught_ValueError_TypeError e); [|discriminate].
    intros [= <-]. rewrite Z.add_0_r. exact Hs.
Qed.

Lemma run_for_classify_counted (sts : list State) (s s' : ActionStats) (n : Z) :
  counted s n ->
  run_for (classify_state member_value) sts s = (s', Ok tt) ->
  counted s' (n + count_where (classified member_value) sts).
Proof.
  revert s n. induction sts as [|state sts IH]; intros s n Hs.
  - intros [= <-]. unfold count_where. cbn. rewrite Z.add_0_r. exact Hs.
  - cbn [run_for]. unfold mbind at 1, Run_bind at 1.
    destruct (classify_state member_value state s) as [s1 [[]|e]] eqn:Hstep;
      [|discriminate].
    intros Hrest. apply (classify_state_counted _ _ _ _ Hs) in Hstep.
    apply (IH _ _ Hstep) in Hrest.
    replace (n + count_where (classified member_value) (state :: sts))
      with (n + (if classified member_value state then 1 else 0)
            + count_where (classified member_value) sts); [exact Hrest|].
    unfold count_where. cbn [List.filter].
    destruct (classified member_value state); cbn [length]; lia.
Qed.

(** The classifier returns for every episode whose actions have a readable
    tagged branch: the only exception of the distance computation is the
    [TypeError] the [try] block catches. *)
Lemma scan_attribution_raises_TypeError (attribution : list PyVal) (e : exn) :
  scan_attribution attribution = Raise e -> e = TypeError.
Proof.
  induction attribution as [|attr rest IH]; [discriminate|].
  cbn [scan_attribution].
  destruct (isinstance_dict attr && dict_contains attr "cursor") eqn:Hattr;
    [|exact IH].
  apply andb_prop in Hattr as [Hdict Hin].
  destruct attr as [| | | | |d]; try discriminate.
  rewrite dict_contains_lookup in Hin. apply bool_decide_eq_true_1 in Hin.
  destruct Hin as [cursor_info Hcursor].
  rewrite (py_getitem_lookup _ _ _ Hcursor). cbn [mbind Result_bind].
  destruct (isinstance_dict cursor_info && dict_contains cursor_info "line") eqn:Hline.
  - apply andb_prop in Hline as [Hd Hin]. destruct cursor_info as [| | | | |c]; try discriminate.
    rewrite dict_contains_lookup in Hin. apply bool_decide_eq_true_1 in Hin.
    destruct Hin as [line Hl]. rewrite (py_getitem_lookup _ _ _ Hl). discriminate.
  - destruct (isinstance_dict cursor_info && dict_contains cursor_info "char") eqn:Hchar;
      [|exact IH].
    apply andb_prop in Hchar as [Hd _]. destruct cursor_info as [| | | | |c]; try discriminate.
    cbn [py_get mbind Result_bind]. unfold py_floordiv.
    destruct (as_number (dict_get c "char" (PInt 0))); cbn; congruence.
Qed.

Lemma cursor_distance_raises_TypeError (state : State) (e : exn) :
  _calculate_cursor_distance state = Raise e -> e = TypeError.
Proof.
  unfold _calculate_cursor_distance.
  destruct (action state) as [act|]; [|discriminate].
  destruct (negb (truthy (PDict act))); [discriminate|].
  rewrite get_cursor_line_is_scan.
  destruct (scan_attribution (attribution state)) as [cursor_line|e'] eqn:Hscan.
  - cbn [mbind Result_bind]. destruct (is_None cursor_line); [discriminate|].
    unfold py_sub.
    destruct (as_number (dict_get act "target_line" (PInt 1))), (as_number cursor_line);
      cbn; congruence.
  - cbn [mbind Result_bind]. intros [= <-].
    exact (scan_attribution_raises_TypeError _ _ Hscan).
Qed.

Lemma ActionIndex_call_raises_ValueError (value : PyVal) (e : exn) :
  ActionIndex_call member_value value = Raise e -> e = ValueError.
Proof.
  unfold ActionIndex_call.
  destruct (find _ ActionIndex_members); congruence.
Qed.

Lemma classify_state_returns (state : State) (s : ActionStats) (n : Z) :
  counted s n ->
  readable state = true ->
  exists s', classify_state member_value state s = (s', Ok tt).
Proof.
  intros Hs. unfold readable, classify_state.
  destruct (action state) as [act|]; [|eexists; reflexivity].
  unfold mbind at 1, Run_bind at 1, lift at 1.
  destruct (extract_action_type act (_is_assistant_action (Some act)))
    as [action_type|e]; [intros _|discriminate].
  unfold run_try, classify_action.
  unfold mbind at 1, Run_bind at 1, lift at 1.
  destruct (ActionIndex_call member_value action_type) as [action_enum|e] eqn:Hcall.
  - unfold mbind at 1, Run_bind at 1.
    assert (Hincr : exists s1,
      (if _is_assistant_action (Some act)
       then incr_assistant action_enum else incr_human action_enum) s
      = (s1, Ok tt) /\ counted s1 (n + 1)).
    { destruct (_is_assistant_action (Some act));
        [apply incr_assistant_counted|apply incr_human_counted]; exact Hs. }
    destruct Hincr as (s1 & -> & _).
    destruct (distance_tracked action_enum); [|eexists; reflexivity].
    unfold mbind, Run_bind, lift.
    destruct (_calculate_cursor_distance state) as [distance|e] eqn:Hdist.
    + repeat case_decide; eexists; reflexivity.
    + rewrite (cursor_distance_raises_TypeError _ _ Hdist). eexists; reflexivity.
  - rewrite (ActionIndex_call_raises_ValueError _ _ Hcall). eexists; reflexivity.
Qed.

Lemma classifier_returns_on_readable_actions (episode : Episode) :
  Forall (fun state => readable state = true) (states episode) ->
  exists stats, _compute_action_statistics member_value episode = Ok stats.
Proof.
  unfold _compute_action_statistics. intros Hall.
  assert (Hrun : forall s n, counted s n ->
    exists s', run_for (classify_state member_value) (states episode) s = (s', Ok tt)).
  { induction Hall as [|state sts Hstate _ IH]; intros s n Hs.
    - eexists; reflexivity.
    - cbn [run_for]. unfold mbind at 1, Run_bind at 1.
      destruct (classify_state_returns state s n Hs Hstate) as [s1 Hstep].
      rewrite Hstep. exact (IH _ _ (classify_state_counted _ _ _ _ Hs Hstep)). }
  destruct (Hrun initial_stats 0) as [s' ->]; [|eexists; reflexivity].
  split; [|split]; [apply zero_counts_complete..|reflexivity].
Qed.

(** C7: the classifier returns for every episode whose actions have a
    readable tagged branch, and whenever it returns, the assistant and the
    human mapping each have an entry for every one of the seven kinds, all
    entries of both mappings add up to the number of states whose action
    was classified, and with no states every entry is the initial 0. *)
Theorem action_counts_complete_and_total (episode : Episode) :
  (Forall (fun state => readable state = true) (states episode) ->
   exists stats, _compute_action_statistics member_value episode = Ok stats) /\
  (forall stats, _compute_action_statistics member_value episode = Ok stats ->
     (forall k, k ∈ ActionIndex_members) /\
     length ActionIndex_members = 7%nat /\
     (forall k, is_Some (assistant_actions stats !! k)) /\
     (forall k, is_Some (human_actions stats !! k)) /\
     counts_total (assistant_actions stats) + counts_total (human_actions stats)
       = count_where (classified member_value) (states episode) /\
     (states episode = [] ->
      forall k, assistant_actions stats !! k = Some 0 /\
                human_actions stats !! k = Some 0)).
Proof.
  split; [apply classifier_returns_on_readable_actions|].
  intros stats. unfold _compute_action_statistics.
  destruct (run_for (classify_state member_value) (states episode) initial_stats)
    as [s [[]|e]] eqn:Hrun; [|discriminate].
  intros [= <-].
  assert (H0 : counted initial_stats 0).
  { split; [|split]; [apply zero_counts_complete..|reflexivity]. }
  destruct (run_for_classify_counted _ _ _ _ H0 Hrun) as (Ha & Hh & Hn).
  split; [apply ActionIndex_members_all|]. split; [reflexivity|].
  split; [exact Ha|]. split; [exact Hh|]. split; [rewrite Hn; lia|].
  intros Hempty k. rewrite Hempty in Hrun. injection Hrun as <-.
  cbn [initial_stats assistant_actions human_actions].
  rewrite zero_counts_lookup. split; reflexivity.
Qed.

(** *** Order of Python values *)

Lemma PyVal_nested_ind (P : PyVal -> Prop) :
  P PNone ->
  (forall b, P (PBool b)) ->
  (forall z, P (PInt z)) ->
  (forall s, P (PStr s)) ->
  (forall l, Forall P l -> P (PList l)) ->
  (forall d, P (PDict d)) ->
  forall v, P v.
Proof.
  intros HNone HBool HInt HStr HList HDict.
  fix IH 1.
  intros [|b|z|s|l|d];
    [exact HNone|apply HBool|apply HInt|apply HStr| |apply HDict].
  apply HList. induction l as [|x l IHl]; constructor; [apply IH|exact IHl].
Qed.

Lemma py_eqb_list_cons (x y : PyVal) (xs ys : list PyVal) :
  py_eqb (PList (x :: xs)) (PList (y :: ys))
  = py_eqb x y && py_eqb (PList xs) (PList ys).
Proof. reflexivity. Qed.

Lemma py_lt_list_cons (x y : PyVal) (xs ys : list PyVal) :
  py_lt (PList (x :: xs)) (PList (y :: ys))
  = if py_eqb x y then py_lt (PList xs) (PList ys) else py_lt x y.
Proof. reflexivity. Qed.

Lemma string_ltb_irrefl (s : string) : String.ltb s s = false.
Proof.
  unfold String.ltb. pose proof (String.compare_antisym s s) as H.
  destruct (String.compare s s); [reflexivity|discriminate|reflexivity].
Qed.

Lemma string_ltb_asym (s t : string) : String.ltb s t = true -> String.ltb t s = false.
Proof.
  unfold String.ltb. rewrite (String.compare_antisym t s).
  destruct (String.compare s t); cbn; congruence.
Qed.

(** Values that are equal are not ordered, in either direction. *)
Lemma py_eqb_not_lt (a b : PyVal) :
  py_eqb a b = true -> py_lt a b <> Ok true /\ py_lt b a <> Ok true.
Proof.
  revert b. induction a as [|x|x|s|xs IH|d] using PyVal_nested_ind; intros b.
  - destruct b; cbn; try discriminate. intros _. split; discriminate.
  - destruct b as [|y|y| | |]; cbn; try discriminate;
      intros H; apply Z.eqb_eq in H; rewrite H, Z.ltb_irrefl; split; discriminate.
  - destruct b as [|y|y| | |]; cbn; try discriminate;
      intros H; apply Z.eqb_eq in H; rewrite H, Z.ltb_irrefl; split; discriminate.
  - destruct b as [| | |t| |]; cbn; try discriminate.
    intros H. apply String.eqb_eq in H. subst t.
    rewrite string_ltb_irrefl. split; discriminate.
  - destruct b as [| | | |ys|]; try (cbn; discriminate).
    revert ys. induction IH as [|x xs Hx _ IHxs]; intros [|y ys];
      try (cbn; discriminate).
    + intros _. split; discriminate.
    + rewrite py_eqb_list_cons, !py_lt_list_cons.
      intros H. apply andb_prop in H as [Hxy Hrest]. rewrite Hxy.
      destruct (IHxs ys Hrest) as [H1 H2]. split; [exact H1|].
      destruct (py_eqb y x); [exact H2|]. exact (proj2 (Hx y Hxy)).
  - destruct b; cbn; try discriminate. intros _. split; discriminate.
Qed.

(** [<] is asymmetric: [curr < prev] and [curr > prev] never both hold. *)
Lemma py_lt_asym (a b : PyVal) : py_lt a b = Ok true -> py_lt b a <> Ok true.
Proof.
  revert b. induction a as [|x|x|s|xs IH|d] using PyVal_nested_ind; intros b.
  - destruct b; cbn; discriminate.
  - destruct b as [|y|y| | |]; cbn; try discriminate;
      intros [= H] [= H']; apply Z.ltb_lt in H, H'; lia.
  - destruct b as [|y|y| | |]; cbn; try discriminate;
      intros [= H] [= H']; apply Z.ltb_lt in H, H'; lia.
  - destruct b as [| | |t| |]; cbn; try discriminate.
    intros [= H]. rewrite (string_ltb_asym _ _ H). discriminate.
  - destruct b as [| | | |ys|]; try (cbn; discriminate).
    revert ys. induction IH as [|x xs Hx _ IHxs]; intros [|y ys];
      try (cbn; discriminate).
    rewrite !py_lt_list_cons.
    destruct (py_eqb x y) eqn:Hxy.
    + intros Hrest. destruct (py_eqb y x); [exact (IHxs ys Hrest)|].
      exact (proj2 (py_eqb_not_lt x y Hxy)).
    + intros Hlt. destruct (py_eqb y x) eqn:Hyx.
      * exfalso. exact (proj2 (py_eqb_not_lt y x Hyx) Hlt).
      * exact (Hx y Hlt).
  - destruct b; cbn; discriminate.
Qed.

(** *** Loops over consecutive states *)

Lemma index_app_middle {A} (pre : list A) (x : A) (l : list A) :
  index (pre ++ x :: l) (length pre) = Ok x.
Proof.
  unfold index. rewrite lookup_app_r by lia.
  rewrite Nat.sub_diag. reflexivity.
Qed.

Lemma fold_pairs_cons {A S} (body : A -> A -> S -> Result S)
    (prev curr : A) (l : list A) (s : S) :
  fold_pairs body (prev :: curr :: l) s
  = (s' ← body prev curr s; fold_pairs body (curr :: l) s').
Proof. reflexivity. Qed.

Lemma for_in_consecutive {A S} (body : A -> A -> S -> Result S)
    (full pre l : list A) (s : S) :
  full = (pre ++ l)%list ->
  for_in (fun i s => prev ← index full (i - 1); curr ← index full i; body prev curr s)
         (seq (Datatypes.S (length pre)) (length l - 1)) s
  = fold_pairs body l s.
Proof.
  revert pre s. induction l as [|x l IH]; intros pre s Hfull; [reflexivity|].
  destruct l as [|y l]; [reflexivity|].
  rewrite fold_pairs_cons.
  cbn [length Nat.sub seq for_in]. rewrite Nat.sub_0_r.
  replace (index full (length pre)) with (Ok x)
    by (rewrite Hfull; symmetry; apply index_app_middle).
  replace (index full (Datatypes.S (length pre))) with (Ok y).
  2:{ rewrite Hfull. symmetry.
      replace (pre ++ x :: y :: l)%list with ((pre ++ [x]) ++ y :: l)%list
        by (rewrite <- app_assoc; reflexivity).
      replace (Datatypes.S (length pre)) with (length (pre ++ [x])%list)
        by (rewrite length_app; cbn; lia).
      apply index_app_middle. }
  cbn [mbind Result_bind]. destruct (body x y s) as [s'|e]; [|reflexivity].
  cbn [mbind Result_bind]. rewrite <- (IH (pre ++ [x])%list s')
    by (rewrite Hfull, <- app_assoc; reflexivity).
  rewrite length_app. cbn [length Nat.sub].
  rewrite Nat.add_1_r, Nat.sub_0_r. reflexivity.
Qed.

Lemma for_in_range_pairs {A S} (body : A -> A -> S -> Result S) (l : list A) (s : S) :
  for_in (fun i s => prev ← index l (i - 1); curr ← index l i; body prev curr s)
         (range 1 (length l)) s
  = fold_pairs body l s.
Proof. apply (for_in_consecutive body l [] l s). reflexivity. Qed.

Lemma length_transitions (sts : list State) :
  length (transitions sts) = (length sts - 1)%nat.
Proof.
  induction sts as [|prev [|curr rest] IH]; [reflexivity..|].
  cbn [transitions length] in *. rewrite IH. lia.
Qed.

(** *** Regression and progression rates *)

Lemma count_where_cons {A} (p : A -> bool) (x : A) (l : list A) :
  count_where p (x :: l) = (if p x then 1 else 0) + count_where p l.
Proof.
  unfold count_where. cbn [List.filter].
  destruct (p x); cbn [length]; lia.
Qed.



Lemma count_compile_advanced (prev curr : State) (c : RegressionCounters) :
  advanced c (count_compile (env_compiled prev) (env_compiled curr) c)
    0 (if is_compile_regression (prev, curr) then 1 else 0)
    0 (if is_compile_progression (prev, curr) then 1 else 0) 0.
Proof.
  unfold count_compile, is_compile_regression, is_compile_progression, advanced.
  cbn [fst snd].
  destruct (truthy (env_compiled prev)), (truthy (env_compiled curr)); cbn; lia.
Qed.

Lemma count_tests_advanced (prev_passed curr_passed : PyVal) (c c' : RegressionCounters) :
  count_tests prev_passed curr_passed c = Ok c' ->
  advanced c c'
    (if holds (py_lt curr_passed prev_passed) then 1 else 0) 0
    (if holds (py_gt curr_passed prev_passed) then 1 else 0) 0 0.
Proof.
  unfold count_tests, advanced.
  destruct (py_lt curr_passed prev_passed) as [[|]|e] eqn:Hlt; cbn; [| |discriminate].
  - intros [= <-]. cbn. apply py_lt_asym in Hlt. unfold py_gt.
    destruct (py_lt prev_passed curr_passed) as [[|]|]; [congruence|cbn; lia..].
  - destruct (py_gt curr_passed prev_passed) as [[|]|e]; cbn; [| |discriminate];
      intros [= <-]; cbn; lia.
Qed.

Lemma regression_body_advanced (prev curr : State) (c c' : RegressionCounters) :
  regression_body prev curr c = Ok c' ->
  advanced c c'
    (if is_test_regression (prev, curr) then 1 else 0)
    (if is_compile_regression (prev, curr) then 1 else 0)
    (if is_test_progression (prev, curr) then 1 else 0)
    (if is_compile_progression (prev, curr) then 1 else 0) 1.
Proof.
  unfold regression_body, is_test_regression, is_test_progression. cbn [fst snd].
  destruct (env_tests_passed prev) as [prev_passed|e]; [|discriminate].
  destruct (env_tests_passed curr) as [curr_passed|e]; [|discriminate].
  cbn [mbind Result_bind].
  destruct (count_tests _ _ _) as [c1|e] eqn:Htests; [|discriminate].
  cbn [mbind Result_bind]. intros [= <-].
  apply count_tests_advanced in Htests.
  pose proof (count_compile_advanced prev curr c) as Hcompile.
  unfold advanced in *. cbn. lia.
Qed.

Lemma fold_pairs_regression_advanced (sts : list State) (c c' : RegressionCounters) :
  fold_pairs regression_body sts c = Ok c' ->
  advanced c c'
    (count_where is_test_regression (transitions sts))
    (count_where is_compile_regression (transitions sts))
    (count_where is_test_progression (transitions sts))
    (count_where is_compile_progression (transitions sts))
    (Z.of_nat (length (transitions sts))).
Proof.
  revert c. induction sts as [|prev [|curr rest] IH]; intros c.
  - intros [= <-]. unfold advanced, count_where. cbn. lia.
  - intros [= <-]. unfold advanced, count_where. cbn. lia.
  - rewrite fold_pairs_cons.
    destruct (regression_body prev curr c) as [c1|e] eqn:Hbody; [|discriminate].
    cbn [mbind Result_bind]. intros Hrest.
    apply regression_body_advanced in Hbody. apply IH in Hrest.
    change (transitions (prev :: curr :: rest))
      with ((prev, curr) :: transitions (curr :: rest)).
    rewrite !count_where_cons. cbn [length].
    unfold advanced in *. lia.
Qed.

Lemma regression_body_returns (prev curr : State) (c : RegressionCounters) :
  numeric_tests prev = true -> numeric_tests curr = true ->
  exists c', regression_body prev curr c = Ok c'.
Proof.
  unfold numeric_tests, regression_body.
  destruct (env_tests_passed prev) as [prev_passed|]; [|discriminate].
  destruct (env_tests_passed curr) as [curr_passed|]; [|discriminate].
  intros Hp Hc. apply bool_decide_eq_true_1 in Hp as [x Hx], Hc as [y Hy].
  cbn [mbind Result_bind]. unfold count_tests, py_gt.
  assert (Hlt : forall a b u v, as_number a = Some u -> as_number b = Some v ->
                                py_lt a b = Ok (u <? v)).
  { intros a b u v Ha Hb. destruct a, b; cbn in *; try discriminate;
      injection Ha as <-; injection Hb as <-; reflexivity. }
  rewrite (Hlt _ _ _ _ Hy Hx), (Hlt _ _ _ _ Hx Hy). cbn [mbind Result_bind].
  destruct (y <? x); [eexists; reflexivity|].
  cbn [mbind Result_bind]. destruct (x <? y); eexists; reflexivity.
Qed.

Lemma fold_pairs_regression_returns (sts : list State) (c : RegressionCounters) :
  Forall (fun state => numeric_tests state = true) sts ->
  exists c', fold_pairs regression_body sts c = Ok c'.
Proof.
  intros Hall. revert c.
  induction Hall as [|prev rest Hprev Hrest IH]; intros c; [eexists; reflexivity|].
  destruct rest as [|curr rest]; [eexists; reflexivity|].
  rewrite fold_pairs_cons.
  destruct (regression_body_returns prev curr c Hprev) as [c1 ->];
    [exact (Forall_inv Hrest)|].
  cbn [mbind Result_bind]. apply IH.
Qed.




Lemma py_truediv_rate (count n : Z) :
  py_truediv count (Z.max n 1) = Ok (rate_of count n).
Proof.
  unfold py_truediv, rate_of. rewrite (Z.max_comm n 1).
  destruct (Z.eqb_spec (Z.max 1 n) 0) as [H|_]; [lia|reflexivity].
Qed.


(** *** Latency percentiles *)

Lemma insert_by_perm {A} (key : A -> Z) (x : A) (l : list A) :
  insert_by key x l ≡ₚ x :: l.
Proof.
  induction l as [|y l IH]; [reflexivity|].
  cbn [insert_by]. destruct (key x <=? key y); [reflexivity|].
  rewrite IH. apply Permutation_swap.
Qed.

Lemma sorted_by_perm {A} (key : A -> Z) (l : list A) : sorted_by key l ≡ₚ l.
Proof.
  induction l as [|x l IH]; [reflexivity|].
  cbn [sorted_by]. rewrite insert_by_perm, IH. reflexivity.
Qed.

Lemma sorted_by_length {A} (key : A -> Z) (l : list A) :
  length (sorted_by key l) = length l.
Proof. apply Permutation_length, sorted_by_perm. Qed.

Lemma insert_by_sorted {A} (key : A -> Z) (x : A) (l : list A) :
  StronglySorted (fun a b => key a <= key b) l ->
  StronglySorted (fun a b => key a <= key b) (insert_by key x l).
Proof.
  induction 1 as [|y l Hl IH Hy]; [repeat constructor|].
  cbn [insert_by]. destruct (Z.leb_spec (key x) (key y)) as [Hxy|Hxy].
  - constructor; [constructor; assumption|].
    constructor; [exact Hxy|].
    eapply Forall_impl; [exact Hy|]. cbn. intros z Hz. lia.
  - constructor; [exact IH|].
    rewrite insert_by_perm. constructor; [lia|exact Hy].
Qed.

Lemma sorted_by_sorted {A} (key : A -> Z) (l : list A) :
  StronglySorted (fun a b => key a <= key b) (sorted_by key l).
Proof.
  induction l as [|x l IH]; [constructor|].
  cbn [sorted_by]. apply insert_by_sorted, IH.
Qed.

(** In a sorted list a later position holds a value that is not smaller. *)
Lemma sorted_lookup_le (l : list Z) (i j : nat) (a b : Z) :
  StronglySorted Z.le l ->
  (i <= j)%nat -> l !! i = Some a -> l !! j = Some b -> a <= b.
Proof.
  intros Hl. revert i j a b.
  induction Hl as [|x l Hl IH Hx]; intros i j a b Hij Hi Hj.
  - discriminate.
  - destruct i as [|i], j as [|j]; cbn in Hi, Hj.
    + injection Hi as <-. injection Hj as <-. lia.
    + injection Hi as <-. rewrite Forall_forall in Hx.
      apply Hx, list_elem_of_lookup. eauto.
    + lia.
    + apply (IH i j); [lia|assumption..].
Qed.

Lemma percentile_index_lt (n : nat) (num den : Z) :
  (0 < n)%nat -> 0 <= num < den -> (percentile_index n num den < n)%nat.
Proof.
  intros Hn Hfrac. unfold percentile_index.
  assert (Z.of_nat n * num / den < Z.of_nat n)
    by (apply Z.div_lt_upper_bound; nia).
  assert (0 <= Z.of_nat n * num / den) by (apply Z.div_pos; nia).
  lia.
Qed.

Lemma percentile_index_order (n : nat) :
  (percentile_index n 1 2 <= percentile_index n 9 10)%nat /\
  (percentile_index n 9 10 <= percentile_index n 99 100)%nat.
Proof.
  unfold percentile_index.
  split; apply Z2Nat.inj_le; try (apply Z.div_pos; lia);
    Z.to_euclidean_division_equations; lia.
Qed.

Lemma percentile_at_lookup (latencies : list Z) (num den : Z) :
  latencies <> [] -> 0 <= num < den ->
  exists v,
    percentile_at latencies (length latencies) num den = Ok v /\
    latencies !! percentile_index (length latencies) num den = Some v.
Proof.
  intros Hne Hfrac. unfold percentile_at, index.
  assert (Hn : (0 < length latencies)%nat)
    by (destruct latencies; [congruence|cbn; lia]).
  destruct (Nat.ltb_spec 0 (length latencies)) as [_|]; [|lia].
  destruct (lookup_lt_is_Some_2 latencies
              (percentile_index (length latencies) num den)) as [v Hv];
    [apply percentile_index_lt; assumption|].
  rewrite Hv. eauto.
Qed.

Lemma latency_body_returns (prev curr : State) (latencies : list Z) :
  exists latencies', latency_body prev curr latencies = Ok latencies'.
Proof.
  unfold latency_body.
  destruct (isinstance_int (getattr_timestamp_ms prev PNone)) eqn:Hp;
    [|eexists; reflexivity].
  destruct (isinstance_int (getattr_timestamp_ms curr PNone)) eqn:Hc;
    [|eexists; reflexivity].
  cbn [andb]. unfold py_sub.
  destruct (getattr_timestamp_ms prev PNone), (getattr_timestamp_ms curr PNone);
    try discriminate; cbn [as_number mbind Result_bind];
    match goal with |- context [0 <? ?d] => destruct (0 <? d) end;
    eexists; reflexivity.
Qed.

Lemma fold_pairs_latency_returns (sts : list State) (latencies : list Z) :
  exists latencies', fold_pairs latency_body sts latencies = Ok latencies'.
Proof.
  revert latencies. induction sts as [|prev [|curr rest] IH]; intros latencies;
    [eexists; reflexivity..|].
  rewrite fold_pairs_cons.
  destruct (latency_body_returns prev curr latencies) as [l1 ->].
  cbn [mbind Result_bind]. apply IH.
Qed.

(** The binary64 computation of the three indexes gives the integer
    quotient, checked here for every length up to 2048. *)
Lemma binary64_index_agrees :
  forallb (fun n =>
             (binary64_index n 1 2 =? percentile_index n 1 2)%nat &&
             (binary64_index n 9 10 =? percentile_index n 9 10)%nat &&
             (binary64_index n 99 100 =? percentile_index n 99 100)%nat)
          (seq 0 2049) = true.
Proof. vm_compute. reflexivity. Qed.

Example latency_sample_percentiles :
  _compute_latency_stats (episode_of 0 latency_sample_states)
  = Ok {| p50_latency_ms := 30; p90_latency_ms := 60; p99_latency_ms := 60 |}.
Proof. reflexivity. Qed.

(** C9: [_compute_latency_stats] returns for every episode, and the
    percentiles it reports are ordered, [p50 <= p90 <= p99]; in particular
    when the list of positive deltas is not empty, where they are the
    entries of the sorted deltas at the three percentile positions. *)
Theorem latency_percentiles_monotone (episode : Episode) :
  exists stats,
    _compute_latency_stats episode = Ok stats /\
    p50_latency_ms stats <= p90_latency_ms stats /\
    p90_latency_ms stats <= p99_latency_ms stats.
Proof.
  unfold _compute_latency_stats.
  destruct (length (states episode) <? 2)%nat;
    [eexists; split; [reflexivity|cbn; lia]|].
  change (for_in (latency_step (sorted_by timestep (states episode))))
    with (for_in (fun i s =>
                    prev ← index (sorted_by timestep (states episode)) (i - 1);
                    curr ← index (sorted_by timestep (states episode)) i;
                    latency_body prev curr s)).
  rewrite for_in_range_pairs.
  destruct (fold_pairs_latency_returns (sorted_by timestep (states episode)) [])
    as [latencies ->].
  cbn [mbind Result_bind].
  destruct latencies as [|d latencies]; [eexists; split; [reflexivity|cbn; lia]|].
  set (sorted := sorted_by (fun d => d) (d :: latencies)).
  assert (Hne : sorted <> []).
  { intros H. apply (f_equal length) in H. unfold sorted in H.
    rewrite sorted_by_length in H. discriminate. }
  destruct (percentile_at_lookup sorted 1 2 Hne) as (p50 & -> & H50); [lia|].
  destruct (percentile_at_lookup sorted 9 10 Hne) as (p90 & -> & H90); [lia|].
  destruct (percentile_at_lookup sorted 99 100 Hne) as (p99 & -> & H99); [lia|].
  cbn [mbind Result_bind]. eexists. split; [reflexivity|].
  cbn [p50_latency_ms p90_latency_ms p99_latency_ms].
  pose proof (sorted_by_sorted (fun d : Z => d) (d :: latencies)) as Hsorted.
  destruct (percentile_index_order (length sorted)) as [H1 H2].
  split.
  - exact (sorted_lookup_le sorted _ _ _ _ Hsorted H1 H50 H90).
  - exact (sorted_lookup_le sorted _ _ _ _ Hsorted H2 H90 H99).
Qed.

End Properties.

(** ** The properties at concrete inputs *)

Lemma edit_scenario_records_distance_six_witness :
  exists stats,
    _compute_action_statistics snake_case_value (episode_of 0 [edit_scenario_state])
      = Ok stats /\
    edit_existing_distances stats = [6] /\
    explain_single_distances stats = [] /\
    explain_multi_distances stats = [] /\
    assistant_actions stats !! EDIT_EXISTING_LINES = Some 1 /\
    human_actions stats !! EDIT_EXISTING_LINES = Some 0.
Proof.
  apply (edit_scenario_records_distance_six snake_case_value
           (episode_of 0 [edit_scenario_state]) edit_scenario_state); reflexivity.
Defined.

Lemma empty_episode_record_witness :
  exists session,
    convert_episode_session_to_telemetry_event snake_case_value answering_world
      (episode_of 0 []) = Ok session /\
    total_turns session = 0 /\
    success session = PBool false /\
    time_to_pass session = None /\
    turns_to_pass session = None.
Proof.
  destruct (empty_episode_record snake_case_value answering_world (episode_of 0 [])
              eq_refl) as [Hfields Hreturns].
  destruct (Hreturns (PStr "0xabc") (PInt 1) eq_refl eq_refl) as [session Hsession].
  exists session. split; [exact Hsession|].
  destruct (Hfields session Hsession)
    as (Hturns & _ & _ & _ & _ & _ & _ & _ & Hsuccess & Htime & Hpass).
  repeat split; assumption.
Defined.

Lemma outcome_scenario_record_witness :
  exists session,
    convert_episode_session_to_telemetry_event snake_case_value answering_world
      (episode_of 0 (scenario_states [] [] [])) = Ok session /\
    (session_compile_progression_rate session == 1 # 2)%Q /\
    (session_test_progression_rate session == 1 # 2)%Q /\
    success session = PBool true /\
    turns_to_pass session = Some 2 /\
    time_to_pass session = Some 250.
Proof.
  destruct (outcome_scenario_record snake_case_value answering_world
              (episode_of 0 (scenario_states [] [] [])) [] [] []
              (PStr "0xabc") (PInt 1) eq_refl eq_refl eq_refl)
    as (session & Hsession & Hcp & Htp & Hsuccess & Hturns & _ & Htime).
  exists session. repeat split; try assumption. exact (Htime eq_refl).
Defined.

Lemma action_counts_complete_and_total_witness :
  exists stats,
    _compute_action_statistics snake_case_value (episode_of 0 mixed_states) = Ok stats /\
    counts_total (assistant_actions stats) + counts_total (human_actions stats) = 1.
Proof.
  destruct (action_counts_complete_and_total snake_case_value
              (episode_of 0 mixed_states)) as [Hreturns Hcounts].
  destruct Hreturns as [stats Hstats]; [repeat constructor|].
  exists stats. split; [exact Hstats|].
  destruct (Hcounts stats Hstats) as (_ & _ & _ & _ & Hsum & _). exact Hsum.
Defined.


Lemma cursor_scan_skips_unusable_entries_witness :
  _get_cursor_line_from_attribution (unusable_entries ++ [cursor_on_line_7])
    = _get_cursor_line_from_attribution [cursor_on_line_7] /\
  _get_cursor_line_from_attribution unusable_entries = Ok PNone /\
  (forall state, attribution state = unusable_entries ->
                 _calculate_cursor_distance state = Ok 0).
Proof.
  apply (cursor_scan_skips_unusable_entries unusable_entries [cursor_on_line_7]).
  repeat constructor.
Defined.

(** * Further properties of the module *)

Section FurtherProperties.

Variable member_value : ActionIndex -> PyVal.

(** ** The action classifier, kind by kind *)

Lemma counted_as_cons_count (actor : bool) (k : ActionIndex) (state : State)
    (sts : list State) :
  count_where (counted_as member_value actor k) (state :: sts)
  = (if counted_as member_value actor k state then 1 else 0)
    + count_where (counted_as member_value actor k) sts.
Proof. apply count_where_cons. Qed.

Lemma holding_counted (s : ActionStats) (a h : ActionIndex -> Z) (e x1 x2 : list Z) :
  holding s a h e x1 x2 ->
  exists n, counted s n.
Proof.
  intros (Ha & Hh & _). eexists. split; [|split; [|reflexivity]].
  - intros k. rewrite Ha. eauto.
  - intros k. rewrite Hh. eauto.
Qed.

Lemma incr_assistant_holding (k : ActionIndex) (s : ActionStats)
    (a h : ActionIndex -> Z) (e x1 x2 : list Z) :
  holding s a h e x1 x2 ->
  exists s', incr_assistant k s = (s', Ok tt) /\
             holding s' (fun k' => a k' + if decide (k = k') then 1 else 0) h e x1 x2.
Proof.
  intros (Ha & Hh & He & Hx1 & Hx2). unfold incr_assistant.
  rewrite (dict_incr_Ok _ _ _ (Ha k)). eexists. split; [reflexivity|].
  unfold holding. cbn. repeat split; try assumption.
  intros k'. destruct (decide (k = k')) as [<-|Hne].
  - rewrite lookup_insert_eq. reflexivity.
  - rewrite lookup_insert_ne by assumption. rewrite Ha. f_equal. lia.
Qed.

Lemma incr_human_holding (k : ActionIndex) (s : ActionStats)
    (a h : ActionIndex -> Z) (e x1 x2 : list Z) :
  holding s a h e x1 x2 ->
  exists s', incr_human k s = (s', Ok tt) /\
             holding s' a (fun k' => h k' + if decide (k = k') then 1 else 0) e x1 x2.
Proof.
  intros (Ha & Hh & He & Hx1 & Hx2). unfold incr_human.
  rewrite (dict_incr_Ok _ _ _ (Hh k)). eexists. split; [reflexivity|].
  unfold holding. cbn. repeat split; try assumption.
  intros k'. destruct (decide (k = k')) as [<-|Hne].
  - rewrite lookup_insert_eq. reflexivity.
  - rewrite lookup_insert_ne by assumption. rewrite Hh. f_equal. lia.
Qed.

(** The part of the [try] block behind the increment appends the distance
    to the list of the kind, when the kind is tracked and the distance can
    be computed, and nothing otherwise. *)
Lemma record_distance_holding (state : State) (action_enum : ActionIndex)
    (s s' : ActionStats) (r : Result unit) (a h : ActionIndex -> Z) (e x1 x2 : list Z) :
  holding s a h e x1 x2 ->
  (if distance_tracked action_enum then
     distance ← lift (_calculate_cursor_distance state);
     if decide (action_enum = EDIT_EXISTING_LINES) then append_edit_existing distance
     else if decide (action_enum = EXPLAIN_SINGLE_LINES) then append_explain_single distance
     else if decide (action_enum = EXPLAIN_MULTI_LINE) then append_explain_multi distance
     else mret tt
   else mret tt) s = (s', r) ->
  let added k :=
    if decide (action_enum = k) then
      match _calculate_cursor_distance state with
      | Ok d => [d]
      | Raise _ => []
      end
    else [] in
  holding s' a h (e ++ added EDIT_EXISTING_LINES)%list
    (x1 ++ added EXPLAIN_SINGLE_LINES)%list (x2 ++ added EXPLAIN_MULTI_LINE)%list /\
  (r = Ok tt \/ exists err, r = Raise err /\ _calculate_cursor_distance state = Raise err).
Proof.
  intros (Ha & Hh & He & Hx1 & Hx2). cbv zeta.
  assert (Htracked : distance_tracked action_enum = false ->
            action_enum <> EDIT_EXISTING_LINES /\
            action_enum <> EXPLAIN_SINGLE_LINES /\
            action_enum <> EXPLAIN_MULTI_LINE)
    by (destruct action_enum; intros H; repeat split; discriminate).
  destruct (distance_tracked action_enum).
  - unfold mbind, Run_bind, lift.
    destruct (_calculate_cursor_distance state) as [d|err].
    + repeat case_decide; subst; try discriminate; intros [= <- <-];
        (split; [|left; reflexivity]); unfold holding; cbn;
        rewrite ?app_nil_r; repeat split; assumption.
    + intros [= <- <-].
      split; [|right; eexists; split; reflexivity].
      unfold holding. repeat case_decide; rewrite ?app_nil_r; repeat split; assumption.
  - destruct (Htracked eq_refl) as (H1 & H2 & H3).
    intros [= <- <-]. split; [|left; reflexivity].
    rewrite !decide_False by assumption. rewrite !app_nil_r.
    repeat split; assumption.
Qed.

Lemma holding_ext (s : ActionStats) (a a' h h' : ActionIndex -> Z)
    (e e' x1 x1' x2 x2' : list Z) :
  holding s a h e x1 x2 ->
  (forall k, a k = a' k) -> (forall k, h k = h' k) ->
  e = e' -> x1 = x1' -> x2 = x2' ->
  holding s a' h' e' x1' x2'.
Proof.
  intros (Ha & Hh & He & Hx1 & Hx2) Haa Hhh <- <- <-.
  repeat split; try assumption; intros k; [rewrite Ha, Haa|rewrite Hh, Hhh]; reflexivity.
Qed.

(** One turn of the loop that does not raise: the state is counted once
    under its classification, and its distance, when it can be computed,
    goes to the end of the list of its kind. *)
Lemma classify_state_holding (state : State) (s s' : ActionStats)
    (a h : ActionIndex -> Z) (e x1 x2 : list Z) :
  holding s a h e x1 x2 ->
  classify_state member_value state s = (s', Ok tt) ->
  holding s'
    (fun k => a k + if counted_as member_value true k state then 1 else 0)
    (fun k => h k + if counted_as member_value false k state then 1 else 0)
    (e ++ option_list (recorded_distance member_value EDIT_EXISTING_LINES state))%list
    (x1 ++ option_list (recorded_distance member_value EXPLAIN_SINGLE_LINES state))%list
    (x2 ++ option_list (recorded_distance member_value EXPLAIN_MULTI_LINE state))%list.
Proof.
  intros Hs. unfold classify_state, counted_as, recorded_distance, classification.
  destruct (action state) as [act|].
  2:{ intros [= <-]. cbn. apply (holding_ext _ _ _ _ _ _ _ _ _ _ _ Hs);
        rewrite ?app_nil_r; intros; try reflexivity;
        rewrite bool_decide_eq_false_2 by discriminate; lia. }
  unfold mbind at 1, Run_bind at 1, lift at 1.
  destruct (extract_action_type act (_is_assistant_action (Some act)))
    as [action_type|err]; [|discriminate].
  unfold run_try, classify_action.
  unfold mbind at 1, Run_bind at 1, lift at 1.
  destruct (ActionIndex_call member_value action_type) as [action_enum|err].
  2:{ destruct (caught_ValueError_TypeError err); [|discriminate].
      intros [= <-]. cbn. apply (holding_ext _ _ _ _ _ _ _ _ _ _ _ Hs);
        rewrite ?app_nil_r; intros; try reflexivity;
        rewrite bool_decide_eq_false_2 by discriminate; lia. }
  unfold mbind at 1, Run_bind at 1.
  destruct (_is_assistant_action (Some act)).
  - destruct (incr_assistant_holding action_enum s a h e x1 x2 Hs) as (s1 & -> & Hs1).
    match goal with
    | |- context [?m s1] => destruct (m s1) as [s2 r] eqn:Hrest
    end.
    destruct (record_distance_holding _ _ _ _ _ _ _ _ _ _ Hs1 Hrest) as [Hs2 Hr].
    intros Hout.
    assert (s2 = s') as ->.
    { destruct r as [[]|err]; [congruence|].
      destruct (caught_ValueError_TypeError err); congruence. }
    apply (holding_ext _ _ _ _ _ _ _ _ _ _ _ Hs2).
    + intros k. destruct (decide (action_enum = k)) as [->|Hne].
      * rewrite bool_decide_eq_true_2 by reflexivity. reflexivity.
      * rewrite bool_decide_eq_false_2 by congruence. reflexivity.
    + intros k. rewrite bool_decide_eq_false_2 by congruence. lia.
    + repeat case_decide; try destruct (_calculate_cursor_distance state); reflexivity.
    + repeat case_decide; try destruct (_calculate_cursor_distance state); reflexivity.
    + repeat case_decide; try destruct (_calculate_cursor_distance state); reflexivity.
  - destruct (incr_human_holding action_enum s a h e x1 x2 Hs) as (s1 & -> & Hs1).
    match goal with
    | |- context [?m s1] => destruct (m s1) as [s2 r] eqn:Hrest
    end.
    destruct (record_distance_holding _ _ _ _ _ _ _ _ _ _ Hs1 Hrest) as [Hs2 Hr].
    intros Hout.
    assert (s2 = s') as ->.
    { destruct r as [[]|err]; [congruence|].
      destruct (caught_ValueError_TypeError err); congruence. }
    apply (holding_ext _ _ _ _ _ _ _ _ _ _ _ Hs2).
    + intros k. rewrite bool_decide_eq_false_2 by congruence. lia.
    + intros k. destruct (decide (action_enum = k)) as [->|Hne].
      * rewrite bool_decide_eq_true_2 by reflexivity. reflexivity.
      * rewrite bool_decide_eq_false_2 by congruence. reflexivity.
    + repeat case_decide; try destruct (_calculate_cursor_distance state); reflexivity.
    + repeat case_decide; try destruct (_calculate_cursor_distance state); reflexivity.
    + repeat case_decide; try destruct (_calculate_cursor_distance state); reflexivity.
Qed.

Lemma run_for_classify_holding (sts : list State) (s s' : ActionStats)
    (a h : ActionIndex -> Z) (e x1 x2 : list Z) :
  holding s a h e x1 x2 ->
  run_for (classify_state member_value) sts s = (s', Ok tt) ->
  holding s'
    (fun k => a k + count_where (counted_as member_value true k) sts)
    (fun k => h k + count_where (counted_as member_value false k) sts)
    (e ++ omap (recorded_distance member_value EDIT_EXISTING_LINES) sts)%list
    (x1 ++ omap (recorded_distance member_value EXPLAIN_SINGLE_LINES) sts)%list
    (x2 ++ omap (recorded_distance member_value EXPLAIN_MULTI_LINE) sts)%list.
Proof.
  revert s a h e x1 x2. induction sts as [|state sts IH]; intros s a h e x1 x2 Hs.
  - intros [= <-]. apply (holding_ext _ _ _ _ _ _ _ _ _ _ _ Hs);
      cbn; rewrite ?app_nil_r; intros; try reflexivity; unfold count_where; cbn; lia.
  - cbn [run_for]. unfold mbind at 1, Run_bind at 1.
    destruct (classify_state member_value state s) as [s1 [[]|err]] eqn:Hstep;
      [|discriminate].
    intros Hrest. apply (classify_state_holding _ _ _ _ _ _ _ _ Hs) in Hstep.
    apply (IH _ _ _ _ _ _ Hstep) in Hrest.
    apply (holding_ext _ _ _ _ _ _ _ _ _ _ _ Hrest).
    + intros k. rewrite counted_as_cons_count. lia.
    + intros k. rewrite counted_as_cons_count. lia.
    + cbn [omap list_omap]. rewrite <- app_assoc. f_equal.
      destruct (recorded_distance member_value EDIT_EXISTING_LINES state); reflexivity.
    + cbn [omap list_omap]. rewrite <- app_assoc. f_equal.
      destruct (recorded_distance member_value EXPLAIN_SINGLE_LINES state); reflexivity.
    + cbn [omap list_omap]. rewrite <- app_assoc. f_equal.
      destruct (recorded_distance member_value EXPLAIN_MULTI_LINE state); reflexivity.
Qed.

Lemma initial_stats_holding :
  holding initial_stats (fun _ => 0) (fun _ => 0) [] [] [].
Proof.
  repeat split; intros k; apply zero_counts_lookup.
Qed.

Lemma classifier_result_holding (episode : Episode) (stats : ActionStats) :
  _compute_action_statistics member_value episode = Ok stats ->
  holding stats
    (fun k => count_where (counted_as member_value true k) (states episode))
    (fun k => count_where (counted_as member_value false k) (states episode))
    (omap (recorded_distance member_value EDIT_EXISTING_LINES) (states episode))
    (omap (recorded_distance member_value EXPLAIN_SINGLE_LINES) (states episode))
    (omap (recorded_distance member_value EXPLAIN_MULTI_LINE) (states episode)).
Proof.
  unfold _compute_action_statistics.
  destruct (run_for (classify_state member_value) (states episode) initial_stats)
    as [s [[]|err]] eqn:Hrun; [|discriminate].
  intros [= <-].
  apply (run_for_classify_holding _ _ _ _ _ _ _ _ initial_stats_holding) in Hrun.
  apply (holding_ext _ _ _ _ _ _ _ _ _ _ _ Hrun); intros; reflexivity || lia.
Qed.

(** X1: whenever the classifier returns, the assistant entry of a kind is
    the number of states with an assistant branch whose type is that kind,
    and the human entry the number of states without assistant branch whose
    human type is that kind. *)
Theorem action_counts_by_actor_and_kind (episode : Episode) (stats : ActionStats)
    (k : ActionIndex) :
  _compute_action_statistics member_value episode = Ok stats ->
  assistant_actions stats !! k
    = Some (count_where (counted_as member_value true k) (states episode)) /\
  human_actions stats !! k
    = Some (count_where (counted_as member_value false k) (states episode)).
Proof.
  intros H. destruct (classifier_result_holding _ _ H) as (Ha & Hh & _).
  split; [apply Ha|apply Hh].
Qed.

(** X2: whenever the classifier returns, each of the three distance lists
    holds, in the stored order of the states, the cursor distances of the
    states of its kind, assistant and human alike, whose distance could be
    computed. *)
Theorem distance_lists_by_kind (episode : Episode) (stats : ActionStats) :
  _compute_action_statistics member_value episode = Ok stats ->
  edit_existing_distances stats
    = omap (recorded_distance member_value EDIT_EXISTING_LINES) (states episode) /\
  explain_single_distances stats
    = omap (recorded_distance member_value EXPLAIN_SINGLE_LINES) (states episode) /\
  explain_multi_distances stats
    = omap (recorded_distance member_value EXPLAIN_MULTI_LINE) (states episode).
Proof.
  intros H. destruct (classifier_result_holding _ _ H) as (_ & _ & He & Hx1 & Hx2).
  repeat split; assumption.
Qed.





(** ** When the classifier raises *)





(** ** The first usable cursor decides *)

Lemma scan_attribution_cursor (attr : PyVal) (c : list (string * PyVal))
    (rest : list PyVal) :
  cursor_of attr = Some c ->
  scan_attribution (attr :: rest) =
    match dict_lookup "line" c with
    | Some line => Ok line
    | None =>
        match dict_lookup "char" c with
        | Some char_pos => q ← py_floordiv char_pos 80; Ok (PInt (Z.max 1 q))
        | None => scan_attribution rest
        end
    end.
Proof.
  unfold cursor_of. destruct attr as [| | | | |d]; try discriminate.
  destruct (dict_lookup "cursor" d) as [[| | | | |c']|] eqn:Hcursor; try discriminate.
  intros [= ->]. cbn [scan_attribution isinstance_dict andb].
  rewrite dict_contains_lookup, bool_decide_eq_true_2 by (rewrite Hcursor; eauto).
  rewrite (py_getitem_lookup _ _ _ Hcursor). cbn [mbind Result_bind isinstance_dict andb].
  rewrite !dict_contains_lookup.
  destruct (dict_lookup "line" c) as [line|] eqn:Hline.
  - rewrite bool_decide_eq_true_2 by eauto. apply py_getitem_lookup, Hline.
  - rewrite bool_decide_eq_false_2 by (intros [? [=]]).
    destruct (dict_lookup "char" c) as [char_pos|] eqn:Hchar.
    + rewrite bool_decide_eq_true_2 by eauto.
      unfold py_get, dict_get. rewrite Hchar. reflexivity.
    + rewrite bool_decide_eq_false_2 by (intros [? [=]]). reflexivity.
Qed.

(** X5: the cursor line is the [line] field of the first attribution entry
    that has a cursor record with a line or a character offset; a line is
    taken even when the same record also has an offset, and the entries
    behind it are never looked at. *)
Theorem cursor_line_of_first_usable_entry (skipped rest : list PyVal) (attr : PyVal)
    (c : list (string * PyVal)) (line : PyVal) :
  Forall (fun a => gives_no_cursor a = true) skipped ->
  cursor_of attr = Some c ->
  dict_lookup "line" c = Some line ->
  _get_cursor_line_from_attribution (skipped ++ attr :: rest) = Ok line.
Proof.
  intros Hskipped Hc Hline.
  rewrite get_cursor_line_is_scan, scan_attribution_skips_prefix by assumption.
  rewrite (scan_attribution_cursor _ _ _ Hc), Hline. reflexivity.
Qed.

(** X6: when the first usable cursor record has no line but a numeric
    character offset, the line is estimated as [max(1, offset // 80)]: it is
    at least 1, it is 1 for every offset below 160, and for a larger offset
    it is the number of whole 80-character rows in front of the offset. *)
Theorem cursor_line_estimated_from_offset (skipped rest : list PyVal) (attr : PyVal)
    (c : list (string * PyVal)) (char_pos : PyVal) (offset : Z) :
  Forall (fun a => gives_no_cursor a = true) skipped ->
  cursor_of attr = Some c ->
  dict_lookup "line" c = None ->
  dict_lookup "char" c = Some char_pos ->
  as_number char_pos = Some offset ->
  exists line,
    _get_cursor_line_from_attribution (skipped ++ attr :: rest) = Ok (PInt line) /\
    1 <= line /\
    (offset < 160 -> line = 1) /\
    (160 <= offset -> 80 * line <= offset < 80 * line + 80).
Proof.
  intros Hskipped Hc Hline Hchar Hnum.
  rewrite get_cursor_line_is_scan, scan_attribution_skips_prefix by assumption.
  rewrite (scan_attribution_cursor _ _ _ Hc), Hline, Hchar.
  unfold py_floordiv. rewrite Hnum. cbn [Z.eqb mbind Result_bind].
  eexists. split; [reflexivity|].
  pose proof (Z.div_mod offset 80) as Hdiv.
  pose proof (Z.mod_pos_bound offset 80) as Hmod.
  repeat split; intros; lia.
Qed.

(** X7: when the first usable cursor record has no line and a character
    offset that is not a number, the scan neither skips the entry nor
    defaults: it raises [TypeError], and so does the distance of a state with
    a non-empty action. *)
Theorem cursor_offset_not_a_number_raises (skipped rest : list PyVal) (attr : PyVal)
    (c : list (string * PyVal)) (char_pos : PyVal) (state : State)
    (act : list (string * PyVal)) :
  Forall (fun a => gives_no_cursor a = true) skipped ->
  cursor_of attr = Some c ->
  dict_lookup "line" c = None ->
  dict_lookup "char" c = Some char_pos ->
  as_number char_pos = None ->
  attribution state = (skipped ++ attr :: rest)%list ->
  action state = Some act ->
  act <> [] ->
  _get_cursor_line_from_attribution (skipped ++ attr :: rest) = Raise TypeError /\
  _calculate_cursor_distance state = Raise TypeError.
Proof.
  intros Hskipped Hc Hline Hchar Hnum Hattr Hact Hne.
  assert (Hscan : _get_cursor_line_from_attribution (skipped ++ attr :: rest)
                  = Raise TypeError).
  { rewrite get_cursor_line_is_scan, scan_attribution_skips_prefix by assumption.
    rewrite (scan_attribution_cursor _ _ _ Hc), Hline, Hchar.
    unfold py_floordiv. rewrite Hnum. reflexivity. }
  split; [exact Hscan|].
  unfold _calculate_cursor_distance. rewrite Hact, Hattr, Hscan.
  destruct act; [congruence|reflexivity].
Qed.

(** ** Regression rates: the rest of the picture *)

Lemma regression_rates_loop (episode : Episode) :
  _compute_regression_rates episode =
    if (length (states episode) <? 2)%nat then Ok zero_rates
    else
      c ← fold_pairs regression_body (states episode) zero_counters;
      Ok {| test_regression_rate := rate_of (test_regressions c) (total_transitions c);
            compile_regression_rate := rate_of (compile_regressions c) (total_transitions c);
            test_progression_rate := rate_of (test_progressions c) (total_transitions c);
            compile_progression_rate :=
              rate_of (compile_progressions c) (total_transitions c) |}.
Proof.
  unfold _compute_regression_rates.
  destruct (length (states episode) <? 2)%nat; [reflexivity|].
  change (for_in (regression_step (states episode)))
    with (for_in (fun i s => prev ← index (states episode) (i - 1);
                             curr ← index (states episode) i;
                             regression_body prev curr s)).
  rewrite for_in_range_pairs.
  destruct (fold_pairs regression_body (states episode) zero_counters) as [c|e];
    [|reflexivity].
  cbn [mbind Result_bind]. rewrite !py_truediv_rate. reflexivity.
Qed.

Lemma transitions_short (sts : list State) :
  (length sts < 2)%nat -> transitions sts = [].
Proof. destruct sts as [|prev [|curr rest]]; [reflexivity..|cbn; lia]. Qed.

(** The rates in terms of the consecutive pairs, for both branches of the
    function. *)
Lemma regression_rates_values (episode : Episode) (rates : RegressionRates) :
  _compute_regression_rates episode = Ok rates ->
  let ts := transitions (states episode) in
  let n := Z.of_nat (length ts) in
  (test_regression_rate rates == rate_of (count_where is_test_regression ts) n /\
   compile_regression_rate rates == rate_of (count_where is_compile_regression ts) n /\
   test_progression_rate rates == rate_of (count_where is_test_progression ts) n /\
   compile_progression_rate rates == rate_of (count_where is_compile_progression ts) n)%Q.
Proof.
  rewrite regression_rates_loop.
  destruct (Nat.ltb_spec (length (states episode)) 2) as [Hlen|Hlen].
  - intros [= <-]. cbv zeta. rewrite (transitions_short _ Hlen).
    cbn. repeat split; reflexivity.
  - destruct (fold_pairs regression_body (states episode) zero_counters)
      as [c|e] eqn:Hloop; [|discriminate].
    cbn [mbind Result_bind]. intros [= <-].
    apply fold_pairs_regression_advanced in Hloop.
    destruct Hloop as (Htr & Hcr & Htp & Hcp & Hn). cbn in Htr, Hcr, Htp, Hcp, Hn.
    cbn [test_regression_rate compile_regression_rate test_progression_rate
         compile_progression_rate].
    rewrite Htr, Hcr, Htp, Hcp, Hn. repeat split; reflexivity.
Qed.



Lemma py_lt_raises_TypeError (a b : PyVal) (e : exn) :
  py_lt a b = Raise e -> e = TypeError.
Proof.
  revert b. induction a as [|x|x|s|xs IH|d] using PyVal_nested_ind; intros b;
    try (destruct b; cbn; congruence).
  destruct b as [| | | |ys|]; try (cbn; congruence).
  revert ys. induction IH as [|x xs Hx _ IHxs]; intros [|y ys];
    try (cbn; congruence).
  rewrite py_lt_list_cons. destruct (py_eqb x y); [apply IHxs|apply Hx].
Qed.

Lemma regression_body_raises (prev curr : State) (c : RegressionCounters) (e : exn) :
  regression_body prev curr c = Raise e -> e = AttributeError \/ e = TypeError.
Proof.
  unfold regression_body, env_tests_passed, py_get.
  destruct (dict_get (env prev) "tests" (PDict [])); cbn [mbind Result_bind];
    try (intros [= <-]; left; reflexivity).
  destruct (dict_get (env curr) "tests" (PDict [])); cbn [mbind Result_bind];
    try (intros [= <-]; left; reflexivity).
  unfold count_tests, py_gt.
  match goal with
  | |- context [py_lt ?x ?y ≫= _] =>
      destruct (py_lt x y) as [[|]|e1] eqn:H1; cbn [mbind Result_bind];
        [discriminate| |intros [= <-]; right; exact (py_lt_raises_TypeError _ _ _ H1)]
  end.
  match goal with
  | |- context [py_lt ?x ?y ≫= _] =>
      destruct (py_lt x y) as [[|]|e2] eqn:H2; cbn [mbind Result_bind];
        [discriminate|discriminate|
         intros [= <-]; right; exact (py_lt_raises_TypeError _ _ _ H2)]
  end.
Qed.

Lemma fold_pairs_regression_raises (sts : list State) (c : RegressionCounters) (e : exn) :
  fold_pairs regression_body sts c = Raise e -> e = AttributeError \/ e = TypeError.
Proof.
  revert c. induction sts as [|prev [|curr rest] IH]; intros c; [discriminate..|].
  rewrite fold_pairs_cons.
  destruct (regression_body prev curr c) as [c1|e1] eqn:Hbody.
  - cbn [mbind Result_bind]. apply IH.
  - cbn [mbind Result_bind]. intros [= <-]. exact (regression_body_raises _ _ _ _ Hbody).
Qed.

(** X9: [_compute_regression_rates] raises nothing but the [AttributeError]
    of a [tests] entry that is not a record and the [TypeError] of counts
    that cannot be compared; an episode with fewer than two states gets its
    zero rates without its [env] being read at all. *)
Theorem regression_rates_failure_modes (episode : Episode) :
  (forall e, _compute_regression_rates episode = Raise e ->
             (e = AttributeError \/ e = TypeError) /\
             (2 <= length (states episode))%nat) /\
  ((length (states episode) < 2)%nat ->
   _compute_regression_rates episode = Ok zero_rates).
Proof.
  rewrite regression_rates_loop.
  destruct (Nat.ltb_spec (length (states episode)) 2) as [Hlen|Hlen].
  - split; [discriminate|reflexivity].
  - split; [|lia]. intros e.
    destruct (fold_pairs regression_body (states episode) zero_counters)
      as [c|e1] eqn:Hloop; [discriminate|].
    cbn [mbind Result_bind]. intros [= <-].
    split; [exact (fold_pairs_regression_raises _ _ _ Hloop)|exact Hlen].
Qed.

Lemma transitions_snoc (sts : list State) (x : State) :
  transitions (sts ++ [x]) =
    (transitions sts ++ match last sts with Some y => [(y, x)] | None => [] end)%list.
Proof.
  induction sts as [|a [|b rest] IH]; [reflexivity..|].
  change (transitions ((a :: b :: rest) ++ [x]))
    with ((a, b) :: transitions ((b :: rest) ++ [x])).
  rewrite IH. reflexivity.
Qed.

Lemma transitions_rev (sts : list State) :
  transitions (rev sts) = rev (map (fun t => (t.2, t.1)) (transitions sts)).
Proof.
  induction sts as [|a [|b rest] IH]; [reflexivity..|].
  change (rev (a :: b :: rest)) with (rev (b :: rest) ++ [a])%list.
  rewrite transitions_snoc, IH.
  change (rev (b :: rest)) with (rev rest ++ [b])%list. rewrite last_snoc.
  reflexivity.
Qed.

Lemma count_where_app {A} (p : A -> bool) (l1 l2 : list A) :
  count_where p (l1 ++ l2) = count_where p l1 + count_where p l2.
Proof.
  unfold count_where. rewrite List.filter_app, length_app. apply Nat2Z.inj_add.
Qed.

Lemma count_where_rev {A} (p : A -> bool) (l : list A) :
  count_where p (rev l) = count_where p l.
Proof.
  induction l as [|x l IH]; [reflexivity|].
  cbn [rev]. rewrite count_where_app, IH, !count_where_cons.
  change (count_where p []) with 0. lia.
Qed.

Lemma count_where_map {A B} (p : B -> bool) (f : A -> B) (l : list A) :
  count_where p (map f l) = count_where (fun x => p (f x)) l.
Proof.
  induction l as [|x l IH]; [reflexivity|].
  cbn [map]. rewrite !count_where_cons, IH. reflexivity.
Qed.

Lemma count_where_ext {A} (p q : A -> bool) (l : list A) :
  (forall x, p x = q x) -> count_where p l = count_where q l.
Proof.
  intros H. induction l as [|x l IH]; [reflexivity|].
  rewrite !count_where_cons, IH, H. reflexivity.
Qed.

Lemma count_where_transitions_rev (p q : State * State -> bool) (sts : list State) :
  (forall prev curr, p (curr, prev) = q (prev, curr)) ->
  count_where p (transitions (rev sts)) = count_where q (transitions sts).
Proof.
  intros H. rewrite transitions_rev, count_where_rev, count_where_map.
  apply count_where_ext. intros [prev curr]. apply H.
Qed.

(** X10: reading an episode backwards exchanges regressions and
    progressions: when the rates of an episode and of the episode with its
    states in reverse order are both returned, each regression rate of the
    one is the progression rate of the other. *)
Theorem reversed_episode_swaps_rates (episode reversed : Episode)
    (rates rates' : RegressionRates) :
  states reversed = rev (states episode) ->
  _compute_regression_rates episode = Ok rates ->
  _compute_regression_rates reversed = Ok rates' ->
  (test_regression_rate rates' == test_progression_rate rates /\
   test_progression_rate rates' == test_regression_rate rates /\
   compile_regression_rate rates' == compile_progression_rate rates /\
   compile_progression_rate rates' == compile_regression_rate rates)%Q.
Proof.
  intros Hrev H H'.
  destruct (regression_rates_values _ _ H) as (Htr & Hcr & Htp & Hcp).
  destruct (regression_rates_values _ _ H') as (Htr' & Hcr' & Htp' & Hcp').
  rewrite Htr, Hcr, Htp, Hcp, Htr', Hcr', Htp', Hcp', Hrev.
  assert (Hlen : length (transitions (rev (states episode)))
                 = length (transitions (states episode))).
  { rewrite !length_transitions, length_rev. reflexivity. }
  rewrite Hlen.
  rewrite (count_where_transitions_rev is_test_regression is_test_progression),
          (count_where_transitions_rev is_test_progression is_test_regression),
          (count_where_transitions_rev is_compile_regression is_compile_progression),
          (count_where_transitions_rev is_compile_progression is_compile_regression).
  - repeat split; reflexivity.
  - intros prev curr. unfold is_compile_progression, is_compile_regression.
    cbn [fst snd]. apply andb_comm.
  - intros prev curr. unfold is_compile_progression, is_compile_regression.
    cbn [fst snd]. apply andb_comm.
  - intros prev curr. unfold is_test_progression, is_test_regression, py_gt.
    cbn [fst snd].
    destruct (env_tests_passed prev), (env_tests_passed curr); reflexivity.
  - intros prev curr. unfold is_test_progression, is_test_regression, py_gt.
    cbn [fst snd].
    destruct (env_tests_passed prev), (env_tests_passed curr); reflexivity.
Qed.

(** ** Latency percentiles: which deltas they are *)

Lemma latency_body_delta (prev curr : State) (latencies : list Z) :
  latency_body prev curr latencies
  = Ok (latencies ++ option_list (positive_delta (prev, curr)))%list.
Proof.
  unfold latency_body, positive_delta, py_sub. cbn [fst snd].
  destruct (getattr_timestamp_ms prev PNone), (getattr_timestamp_ms curr PNone);
    cbn [isinstance_int andb as_number mbind Result_bind];
    rewrite ?app_nil_r; try reflexivity;
    match goal with |- context [0 <? ?d] => destruct (0 <? d) end;
    cbn [option_list]; rewrite ?app_nil_r; reflexivity.
Qed.

Lemma fold_pairs_latency_deltas (sts : list State) (latencies : list Z) :
  fold_pairs latency_body sts latencies
  = Ok (latencies ++ omap positive_delta (transitions sts))%list.
Proof.
  revert latencies. induction sts as [|prev [|curr rest] IH]; intros latencies;
    [cbn; rewrite app_nil_r; reflexivity..|].
  rewrite fold_pairs_cons, latency_body_delta. cbn [mbind Result_bind].
  rewrite IH, <- app_assoc.
  change (transitions (prev :: curr :: rest))
    with ((prev, curr) :: transitions (curr :: rest)).
  cbn [omap list_omap]. destruct (positive_delta (prev, curr)); reflexivity.
Qed.

(** The function in terms of the valid deltas. *)
Lemma latency_stats_of_deltas (episode : Episode) :
  _compute_latency_stats episode =
    match valid_deltas (states episode) with
    | [] => Ok zero_latency
    | _ :: _ =>
        let latencies := sorted_by (fun d => d) (valid_deltas (states episode)) in
        let n := length latencies in
        p50 ← percentile_at latencies n 1 2;
        p90 ← percentile_at latencies n 9 10;
        p99 ← percentile_at latencies n 99 100;
        Ok {| p50_latency_ms := p50; p90_latency_ms := p90; p99_latency_ms := p99 |}
    end.
Proof.
  unfold _compute_latency_stats, valid_deltas.
  destruct (Nat.ltb_spec (length (states episode)) 2) as [Hlen|Hlen].
  - rewrite transitions_short; [reflexivity|].
    rewrite sorted_by_length. exact Hlen.
  - change (for_in (latency_step (sorted_by timestep (states episode))))
      with (for_in (fun i s =>
                      prev ← index (sorted_by timestep (states episode)) (i - 1);
                      curr ← index (sorted_by timestep (states episode)) i;
                      latency_body prev curr s)).
    rewrite for_in_range_pairs, fold_pairs_latency_deltas.
    cbn [mbind Result_bind app]. reflexivity.
Qed.

Lemma positive_delta_pos (t : State * State) (d : Z) :
  positive_delta t = Some d -> 0 < d.
Proof.
  unfold positive_delta.
  destruct (as_number (getattr_timestamp_ms t.1 PNone)) as [x|]; [|discriminate].
  destruct (as_number (getattr_timestamp_ms t.2 PNone)) as [y|]; [|discriminate].
  destruct (Z.ltb_spec 0 (y - x)); [|discriminate]. intros [= <-]. assumption.
Qed.

Lemma valid_deltas_pos (sts : list State) : Forall (fun d => 0 < d) (valid_deltas sts).
Proof.
  unfold valid_deltas. apply Forall_forall. intros d Hd.
  apply list_elem_of_omap in Hd as (t & _ & Ht). exact (positive_delta_pos _ _ Ht).
Qed.

(** X11: the three percentiles are 0 when the episode has no valid delta,
    and otherwise each of them is one of the valid deltas, so strictly
    positive: a reported 0 always means that no latency was measured. *)
Theorem latency_percentiles_are_deltas (episode : Episode) :
  exists stats,
    _compute_latency_stats episode = Ok stats /\
    (valid_deltas (states episode) = [] -> stats = zero_latency) /\
    (valid_deltas (states episode) <> [] ->
     p50_latency_ms stats ∈ valid_deltas (states episode) /\
     p90_latency_ms stats ∈ valid_deltas (states episode) /\
     p99_latency_ms stats ∈ valid_deltas (states episode) /\
     0 < p50_latency_ms stats).
Proof.
  rewrite latency_stats_of_deltas.
  destruct (valid_deltas (states episode)) as [|d ds] eqn:Hds.
  - eexists. split; [reflexivity|]. split; [reflexivity|congruence].
  - set (sorted := sorted_by (fun d => d) (d :: ds)).
    assert (Hne : sorted <> []).
    { intros H. apply (f_equal length) in H. unfold sorted in H.
      rewrite sorted_by_length in H. discriminate. }
    cbv zeta.
    destruct (percentile_at_lookup sorted 1 2 Hne) as (p50 & -> & H50); [lia|].
    destruct (percentile_at_lookup sorted 9 10 Hne) as (p90 & -> & H90); [lia|].
    destruct (percentile_at_lookup sorted 99 100 Hne) as (p99 & -> & H99); [lia|].
    cbn [mbind Result_bind]. eexists. split; [reflexivity|].
    split; [discriminate|]. intros _.
    cbn [p50_latency_ms p90_latency_ms p99_latency_ms].
    assert (Hin : forall i p, sorted !! i = Some p -> p ∈ d :: ds).
    { intros i p Hp. apply list_elem_of_lookup_2 in Hp.
      unfold sorted in Hp. rewrite sorted_by_perm in Hp. exact Hp. }
    pose proof (valid_deltas_pos (states episode)) as Hpos. rewrite Hds in Hpos.
    rewrite Forall_forall in Hpos.
    repeat split; eauto.
Qed.

Lemma percentile_index_last (n : nat) (num den : Z) :
  (0 < n)%nat -> 0 <= num < den -> Z.of_nat n * (den - num) <= den ->
  percentile_index n num den = (n - 1)%nat.
Proof.
  intros Hn Hfrac Hsmall. unfold percentile_index.
  replace (Z.of_nat n * num / den) with (Z.of_nat n - 1); [lia|].
  apply Z.div_unique with (r := Z.of_nat n * num - den * (Z.of_nat n - 1));
    [left|]; nia.
Qed.

Lemma sorted_last_is_max (sorted l : list Z) (p : Z) :
  StronglySorted Z.le sorted -> sorted ≡ₚ l ->
  sorted !! (length sorted - 1)%nat = Some p ->
  is_max_of p l.
Proof.
  intros Hsorted Hperm Hp. split.
  - rewrite <- Hperm. exact (list_elem_of_lookup_2 _ _ _ Hp).
  - rewrite <- Hperm. apply Forall_forall. intros d Hd.
    apply list_elem_of_lookup in Hd as [i Hi].
    apply (sorted_lookup_le sorted i (length sorted - 1) d p Hsorted); [|assumption..].
    apply lookup_lt_Some in Hi. lia.
Qed.

(** X12: with few deltas the upper percentiles are the largest delta: p99
    is the maximum of the valid deltas when there are at most 100 of them,
    p90 when there are at most 10, and p50 when there are at most 2. *)
Theorem small_samples_report_the_maximum (episode : Episode) (stats : LatencyStats) :
  _compute_latency_stats episode = Ok stats ->
  valid_deltas (states episode) <> [] ->
  let n := length (valid_deltas (states episode)) in
  ((n <= 100)%nat -> is_max_of (p99_latency_ms stats) (valid_deltas (states episode))) /\
  ((n <= 10)%nat -> is_max_of (p90_latency_ms stats) (valid_deltas (states episode))) /\
  ((n <= 2)%nat -> is_max_of (p50_latency_ms stats) (valid_deltas (states episode))).
Proof.
  rewrite latency_stats_of_deltas.
  destruct (valid_deltas (states episode)) as [|d ds] eqn:Hds; [congruence|].
  intros Hstats _. cbv zeta in *.
  set (sorted := sorted_by (fun d => d) (d :: ds)) in *.
  assert (Hlen : length sorted = length (d :: ds)) by apply sorted_by_length.
  assert (Hne : sorted <> []).
  { intros H. rewrite H in Hlen. discriminate. }
  destruct (percentile_at_lookup sorted 1 2 Hne) as (p50 & E50 & H50); [lia|].
  destruct (percentile_at_lookup sorted 9 10 Hne) as (p90 & E90 & H90); [lia|].
  destruct (percentile_at_lookup sorted 99 100 Hne) as (p99 & E99 & H99); [lia|].
  rewrite E50, E90, E99 in Hstats. cbn [mbind Result_bind] in Hstats.
  injection Hstats as <-. cbn [p50_latency_ms p90_latency_ms p99_latency_ms].
  pose proof (sorted_by_sorted (fun d : Z => d) (d :: ds)) as Hsorted.
  pose proof (sorted_by_perm (fun d : Z => d) (d :: ds)) as Hperm.
  rewrite <- Hlen.
  split; [|split]; intros Hn; apply (sorted_last_is_max sorted _ _ Hsorted Hperm).
  - rewrite <- (percentile_index_last (length sorted) 99 100); [exact H99| |lia|lia].
    rewrite Hlen. cbn. lia.
  - rewrite <- (percentile_index_last (length sorted) 9 10); [exact H90| |lia|lia].
    rewrite Hlen. cbn. lia.
  - rewrite <- (percentile_index_last (length sorted) 1 2); [exact H50| |lia|lia].
    rewrite Hlen. cbn. lia.
Qed.

Lemma NoDup_fmap_inj_on {A B} (f : A -> B) (l : list A) (x y : A) :
  NoDup (f <$> l) -> x ∈ l -> y ∈ l -> f x = f y -> x = y.
Proof.
  induction l as [|a l IH]; [intros _ Hx; inversion Hx|].
  rewrite fmap_cons, NoDup_cons. intros [Ha Hl] Hx Hy Hf.
  apply elem_of_cons in Hx as [->|Hx], Hy as [->|Hy].
  - reflexivity.
  - exfalso. apply Ha. rewrite Hf. apply list_elem_of_fmap_2. exact Hy.
  - exfalso. apply Ha. rewrite <- Hf. apply list_elem_of_fmap_2. exact Hx.
  - apply IH; assumption.
Qed.

Lemma sorted_by_permutation {A} (key : A -> Z) (l1 l2 : list A) :
  l1 ≡ₚ l2 -> NoDup (key <$> l1) ->
  sorted_by key l1 = sorted_by key l2.
Proof.
  intros Hperm Hnodup.
  apply (StronglySorted_unique_strong (fun a b => key a <= key b)).
  - intros x1 x2 H1 H2 H12 H21.
    rewrite sorted_by_perm in H1. rewrite sorted_by_perm, <- Hperm in H2.
    apply (NoDup_fmap_inj_on key l1); [assumption..|lia].
  - apply sorted_by_sorted.
  - apply sorted_by_sorted.
  - rewrite !sorted_by_perm. exact Hperm.
Qed.

(** X13: the latency percentiles do not depend on the order in which the
    states are stored, as long as no two states share a timestep: they are
    computed from the states sorted by timestep. *)
Theorem latency_stats_ignore_stored_order (episode episode' : Episode) :
  states episode ≡ₚ states episode' ->
  NoDup (timestep <$> states episode) ->
  _compute_latency_stats episode = _compute_latency_stats episode'.
Proof.
  intros Hperm Hnodup. rewrite !latency_stats_of_deltas. unfold valid_deltas.
  rewrite (sorted_by_permutation timestep _ _ Hperm Hnodup). reflexivity.
Qed.

(** ** The pass fields of the record *)

Lemma max_by_in {A} (key : A -> Z) (best : A) (l : list A) :
  max_by key best l ∈ best :: l.
Proof.
  revert best. induction l as [|x l IH]; intros best; [cbn; apply list_elem_of_here|].
  cbn [max_by]. destruct (key best <? key x).
  - apply list_elem_of_further, IH.
  - pose proof (IH best) as H. apply elem_of_cons in H as [->|H].
    + apply list_elem_of_here.
    + do 2 apply list_elem_of_further. exact H.
Qed.


(** The search for the first passing state, when it returns: no state
    passes, or the states before some passing state do not pass. *)
Lemma find_first_pass_cases (sts : list State) (start : Z) (tp tt : option Z) :
  find_first_pass sts start = Ok (tp, tt) ->
  (tp = None /\ tt = None /\ Forall (fun state => passing state = false) sts) \/
  (exists before state after ts,
     sts = (before ++ state :: after)%list /\
     Forall (fun state => passing state = false) before /\
     passing state = true /\
     py_int (getattr_timestamp_ms state (PInt 0)) = Ok ts /\
     tp = Some (Z.max 0 (ts - start)) /\
     tt = Some (timestep state)).
Proof.
  revert tp tt. induction sts as [|state sts IH]; intros tp tt;
    [intros [= <- <-]; left; repeat split; constructor|].
  cbn [find_first_pass].
  destruct (passes state) as [cond|e] eqn:Hpasses; [|discriminate].
  cbn [mbind Result_bind].
  destruct (truthy cond) eqn:Hcond.
  - destruct (py_int (getattr_timestamp_ms state (PInt 0))) as [ts|e] eqn:Hts;
      [|discriminate].
    cbn [mbind Result_bind]. intros [= <- <-]. right.
    exists [], state, sts, ts.
    split; [reflexivity|]. split; [constructor|]. split; [|repeat split; assumption].
    unfold passing. rewrite Hpasses. exact Hcond.
  - intros H. assert (Hstate : passing state = false)
      by (unfold passing; rewrite Hpasses; exact Hcond).
    destruct (IH _ _ H)
      as [(-> & -> & Hall)|(before & st & after & ts & -> & Hb & Hp & Hts & -> & ->)].
    + left. repeat split. constructor; assumption.
    + right. exists (state :: before), st, after, ts.
      split; [reflexivity|]. split; [constructor; assumption|].
      repeat split; assumption.
Qed.

(** What the assembler computed for the pass fields of a record it
    returned. *)
Lemma convert_pass_fields (w : World) (episode : Episode) (session : EpisodeSession) :
  convert_episode_session_to_telemetry_event member_value w episode = Ok session ->
  match final_state_of (states episode) with
  | Some final_state =>
      exists tests_passed,
        env_tests_passed final_state = Ok tests_passed /\
        py_and (env_compiled final_state)
               (gt ← py_gt tests_passed (PInt 0); Ok (PBool gt)) = Ok (success session) /\
        find_first_pass (sorted_by timestep (states episode)) (start_time episode)
          = Ok (time_to_pass session, turns_to_pass session)
  | None =>
      success session = PBool false /\
      time_to_pass session = None /\ turns_to_pass session = None
  end.
Proof.
  unfold convert_episode_session_to_telemetry_event, final_state_of.
  destruct (get_user_id w) as [u|]; [|discriminate].
  destruct (_load_problem_question_id w (problem_id episode)) as [q|]; [|discriminate].
  cbn [mbind Result_bind].
  destruct (states episode) as [|s rest] eqn:Hstates.
  - cbn [mbind Result_bind].
    repeat match goal with
           | |- context [@mbind Result _ _ _ _ ?m] =>
               destruct m; cbn [mbind Result_bind]; [|discriminate]
           end.
    intros [= <-]. cbn. repeat split.
  - destruct (env_tests_passed (max_by timestep s rest)) as [tests_passed|];
      [|discriminate].
    cbn [mbind Result_bind].
    destruct (py_and _ _) as [success|] eqn:Hsuccess; [|discriminate].
    cbn [mbind Result_bind].
    destruct (find_first_pass _ _) as [[tp tt]|] eqn:Hpass; [|discriminate].
    cbn [mbind Result_bind].
    repeat match goal with
           | |- context [@mbind Result _ _ _ _ ?m] =>
               destruct m; cbn [mbind Result_bind]; [|discriminate]
           end.
    intros [= <-]. cbn. exists tests_passed. repeat split; assumption.
Qed.

Lemma sorted_after_first (key : State -> Z) (before after : list State) (state : State) :
  StronglySorted (fun a b => key a <= key b) (before ++ state :: after) ->
  Forall (fun state' => key state <= key state') after.
Proof.
  induction before as [|b before IH]; cbn [app]; intros H.
  - apply StronglySorted_inv in H as [_ H]. exact H.
  - apply StronglySorted_inv in H as [H _]. exact (IH H).
Qed.

(** Everything the pass fields of a returned record say about the states. *)
Lemma convert_pass_analysis (w : World) (episode : Episode) (session : EpisodeSession) :
  convert_episode_session_to_telemetry_event member_value w episode = Ok session ->
  truthy (success session)
    = match final_state_of (states episode) with
      | Some final_state => passing final_state
      | None => false
      end /\
  ((time_to_pass session = None /\ turns_to_pass session = None /\
    Forall (fun state => passing state = false) (states episode)) \/
   (exists state ts,
      state ∈ states episode /\
      passing state = true /\
      (forall state', state' ∈ states episode -> passing state' = true ->
                      timestep state <= timestep state') /\
      py_int (getattr_timestamp_ms state (PInt 0)) = Ok ts /\
      time_to_pass session = Some (Z.max 0 (ts - start_time episode)) /\
      turns_to_pass session = Some (timestep state))).
Proof.
  intros H. apply convert_pass_fields in H.
  destruct (final_state_of (states episode)) as [final_state|] eqn:Hfinal.
  - destruct H as (tests_passed & Htests & Hsuccess & Hfind). split.
    + unfold passing, passes. rewrite Htests. cbn [mbind Result_bind].
      rewrite Hsuccess. reflexivity.
    + apply find_first_pass_cases in Hfind
        as [(Htp & Htt & Hall)|(before & st & after & ts & Hsorted & Hb & Hp & Hts & Htp & Htt)].
      * left. rewrite sorted_by_perm in Hall. repeat split; assumption.
      * right. exists st, ts.
        assert (Hin : forall x, x ∈ states episode <-> x ∈ (before ++ st :: after)%list).
        { intros x. rewrite <- Hsorted, sorted_by_perm. reflexivity. }
        split; [apply Hin; rewrite elem_of_app, elem_of_cons; auto|].
        split; [exact Hp|]. split; [|repeat split; assumption].
        intros st' Hst' Hp'. apply Hin in Hst'.
        rewrite elem_of_app, elem_of_cons in Hst'.
        destruct Hst' as [Hbefore|[->|Hafter]].
        -- rewrite Forall_forall in Hb. rewrite (Hb _ Hbefore) in Hp'. discriminate.
        -- lia.
        -- pose proof (sorted_by_sorted timestep (states episode)) as Hs.
           rewrite Hsorted in Hs. apply sorted_after_first in Hs.
           rewrite Forall_forall in Hs. exact (Hs _ Hafter).
  - destruct H as (-> & -> & ->). split; [reflexivity|].
    left. repeat split.
    destruct (states episode); [constructor|discriminate].
Qed.

(** X14: in a returned record [time_to_pass] and [turns_to_pass] are set
    together; [turns_to_pass] is the timestep of a passing state and no
    passing state has a smaller timestep; [time_to_pass] is never negative;
    and both are null exactly when no state passes. *)
Theorem pass_fields_describe_first_passing_state (w : World) (episode : Episode)
    (session : EpisodeSession) :
  convert_episode_session_to_telemetry_event member_value w episode = Ok session ->
  (time_to_pass session = None <-> turns_to_pass session = None) /\
  (turns_to_pass session = None <->
   Forall (fun state => passing state = false) (states episode)) /\
  (forall t, time_to_pass session = Some t -> 0 <= t) /\
  (forall n, turns_to_pass session = Some n ->
     exists state,
       state ∈ states episode /\ timestep state = n /\ passing state = true /\
       forall state', state' ∈ states episode -> passing state' = true ->
                      n <= timestep state').
Proof.
  intros H. destruct (convert_pass_analysis _ _ _ H) as [_ Hpass].
  destruct Hpass as [(Htp & Htt & Hall)|(st & ts & Hin & Hp & Hmin & _ & Htp & Htt)].
  - rewrite Htp, Htt. repeat split; try discriminate; auto.
  - rewrite Htp, Htt. repeat split; try discriminate.
    + intros Hall. rewrite Forall_forall in Hall. rewrite (Hall _ Hin) in Hp.
      discriminate.
    + intros t [= <-]. lia.
    + intros n [= <-]. exists st. repeat split; assumption.
Qed.


(** X16: a record that reports success also reports when the episode first
    passed: [time_to_pass] and [turns_to_pass] are set, and [turns_to_pass]
    is at most the timestep of the final state. *)
Theorem success_implies_pass_fields (w : World) (episode : Episode)
    (session : EpisodeSession) :
  convert_episode_session_to_telemetry_event member_value w episode = Ok session ->
  truthy (success session) = true ->
  exists t n final_state,
    time_to_pass session = Some t /\
    turns_to_pass session = Some n /\
    final_state_of (states episode) = Some final_state /\
    n <= timestep final_state.
Proof.
  intros H Htrue. destruct (convert_pass_analysis _ _ _ H) as [Hsuccess Hpass].
  rewrite Htrue in Hsuccess.
  destruct (final_state_of (states episode)) as [final_state|] eqn:Hfinal;
    [|discriminate].
  assert (Hin : final_state ∈ states episode).
  { unfold final_state_of in Hfinal. destruct (states episode) as [|s rest];
      [discriminate|]. injection Hfinal as <-. apply max_by_in. }
  destruct Hpass as [(_ & _ & Hall)|(st & ts & _ & _ & Hmin & _ & Htp & Htt)].
  - rewrite Forall_forall in Hall. rewrite (Hall _ Hin) in Hsuccess. discriminate.
  - exists (Z.max 0 (ts - start_time episode)), (timestep st), final_state.
    repeat split; try assumption. apply Hmin; [exact Hin|symmetry; exact Hsuccess].
Qed.

(** ** Episodes the pipeline cannot fail on *)

Lemma py_lt_numbers (a b : PyVal) (x y : Z) :
  as_number a = Some x -> as_number b = Some y -> py_lt a b = Ok (x <? y).
Proof.
  intros Ha Hb. destruct a, b; cbn in *; try discriminate;
    injection Ha as <-; injection Hb as <-; reflexivity.
Qed.

Lemma passes_returns (state : State) :
  numeric_tests state = true -> exists v, passes state = Ok v.
Proof.
  unfold numeric_tests, passes, py_and.
  destruct (env_tests_passed state) as [tests_passed|]; [|discriminate].
  intros H. apply bool_decide_eq_true_1 in H as [x Hx].
  destruct (truthy (env_compiled state)); [|eexists; reflexivity].
  cbn [mbind Result_bind]. unfold py_gt.
  rewrite (py_lt_numbers (PInt 0) tests_passed 0 x eq_refl Hx). eexists; reflexivity.
Qed.

Lemma py_int_numeric_timestamp (state : State) :
  numeric_timestamp state = true ->
  exists ts, py_int (getattr_timestamp_ms state (PInt 0)) = Ok ts.
Proof.
  unfold numeric_timestamp, getattr_timestamp_ms.
  destruct (timestamp_ms state) as [v|]; [|eexists; reflexivity].
  intros H. apply bool_decide_eq_true_1 in H as [x Hx].
  destruct v; try discriminate; eexists; reflexivity.
Qed.

Lemma find_first_pass_returns (sts : list State) (start : Z) :
  Forall (fun state => numeric_tests state = true) sts ->
  Forall (fun state => numeric_timestamp state = true) sts ->
  exists r, find_first_pass sts start = Ok r.
Proof.
  induction sts as [|state sts IH]; intros Htests Hts; [eexists; reflexivity|].
  apply Forall_cons in Htests as [Htest Htests], Hts as [Ht Hts].
  cbn [find_first_pass].
  destruct (passes_returns state Htest) as [v ->]. cbn [mbind Result_bind].
  destruct (truthy v); [|exact (IH Htests Hts)].
  destruct (py_int_numeric_timestamp state Ht) as [ts ->]. eexists; reflexivity.
Qed.

Lemma regression_rates_return (episode : Episode) :
  Forall (fun state => numeric_tests state = true) (states episode) ->
  exists rates, _compute_regression_rates episode = Ok rates.
Proof.
  intros Hall. rewrite regression_rates_loop.
  destruct (length (states episode) <? 2)%nat; [eexists; reflexivity|].
  destruct (fold_pairs_regression_returns _ zero_counters Hall) as [c ->].
  eexists; reflexivity.
Qed.

Lemma latency_stats_return (episode : Episode) :
  exists stats, _compute_latency_stats episode = Ok stats.
Proof.
  rewrite latency_stats_of_deltas.
  destruct (valid_deltas (states episode)) as [|d ds]; [eexists; reflexivity|].
  set (sorted := sorted_by (fun d => d) (d :: ds)).
  assert (Hne : sorted <> []).
  { intros H. apply (f_equal length) in H. unfold sorted in H.
    rewrite sorted_by_length in H. discriminate. }
  cbv zeta.
  destruct (percentile_at_lookup sorted 1 2 Hne) as (p50 & -> & _); [lia|].
  destruct (percentile_at_lookup sorted 9 10 Hne) as (p90 & -> & _); [lia|].
  destruct (percentile_at_lookup sorted 99 100 Hne) as (p99 & -> & _); [lia|].
  eexists; reflexivity.
Qed.

Lemma counts_getitem_holding (stats : ActionStats) (a h : ActionIndex -> Z)
    (e x1 x2 : list Z) (k : ActionIndex) :
  holding stats a h e x1 x2 ->
  counts_getitem (assistant_actions stats) k = Ok (a k) /\
  counts_getitem (human_actions stats) k = Ok (h k).
Proof.
  intros (Ha & Hh & _). unfold counts_getitem. rewrite Ha, Hh. split; reflexivity.
Qed.

Lemma regular_episode_converts (w : World) (episode : Episode) (u q : PyVal) :
  get_user_id w = Ok u ->
  _load_problem_question_id w (problem_id episode) = Ok q ->
  Forall (fun state => readable state = true) (states episode) ->
  Forall (fun state => numeric_tests state = true) (states episode) ->
  Forall (fun state => numeric_timestamp state = true) (states episode) ->
  exists session,
    convert_episode_session_to_telemetry_event member_value w episode = Ok session.
Proof.
  intros Hu Hq Hreadable Htests Hts.
  unfold convert_episode_session_to_telemetry_event.
  rewrite Hu, Hq. cbn [mbind Result_bind].
  destruct (classifier_returns_on_readable_actions member_value episode Hreadable)
    as [stats Hstats].
  pose proof (classifier_result_holding _ _ Hstats) as Hholding.
  destruct (regression_rates_return episode Htests) as [rates Hrates].
  destruct (latency_stats_return episode) as [latency Hlatency].
  cbv zeta.
  destruct (states episode) as [|s rest] eqn:Hstates.
  - cbn [mbind Result_bind]. rewrite Hstats, Hrates, Hlatency.
    cbn [mbind Result_bind].
    repeat (rewrite (proj1 (counts_getitem_holding _ _ _ _ _ _ _ Hholding))
            || rewrite (proj2 (counts_getitem_holding _ _ _ _ _ _ _ Hholding));
            cbn [mbind Result_bind]).
    eexists; reflexivity.
  - assert (Hfinal : numeric_tests (max_by timestep s rest) = true).
    { rewrite Forall_forall in Htests. apply Htests, max_by_in. }
    destruct (passes_returns _ Hfinal) as [v Hv].
    unfold numeric_tests in Hfinal. unfold passes in Hv.
    destruct (env_tests_passed (max_by timestep s rest)) as [tests_passed|];
      [|discriminate].
    cbn [mbind Result_bind] in *. rewrite Hv. cbn [mbind Result_bind].
    destruct (find_first_pass_returns (sorted_by timestep (s :: rest))
                (start_time episode)) as [[tp tt] ->];
      [rewrite sorted_by_perm; assumption..|].
    cbn [mbind Result_bind]. rewrite Hstats, Hrates, Hlatency.
    cbn [mbind Result_bind].
    repeat (rewrite (proj1 (counts_getitem_holding _ _ _ _ _ _ _ Hholding))
            || rewrite (proj2 (counts_getitem_holding _ _ _ _ _ _ _ Hholding));
            cbn [mbind Result_bind]).
  eexists; reflexivity.
Qed.


(** ** What the record depends on *)

(** X18: the IP lookup cannot make the assembler fail and changes nothing
    but the [ip_addr] field: the assembler raises an exception with one
    outcome of the lookup exactly when it raises it with any other, and a
    failed lookup leaves [ip_addr] null. *)
Theorem ip_lookup_cannot_fail_the_record (w : World) (episode : Episode)
    (r : Result string) :
  (forall e,
     convert_episode_session_to_telemetry_event member_value (with_icanhazip w r) episode
       = Raise e <->
     convert_episode_session_to_telemetry_event member_value w episode = Raise e) /\
  (forall session,
     convert_episode_session_to_telemetry_event member_value w episode = Ok session ->
     ip_addr session = match icanhazip w with
                       | Ok ip => Some ip
                       | Raise _ => None
                       end).
Proof.
  unfold convert_episode_session_to_telemetry_event.
  change (get_user_id (with_icanhazip w r)) with (get_user_id w).
  change (_load_problem_question_id (with_icanhazip w r) (problem_id episode))
    with (_load_problem_question_id w (problem_id episode)).
  cbv zeta.
  destruct (states episode) as [|s rest];
    repeat match goal with
           | |- context [@mbind Result _ _ _ _ ?m] =>
               destruct m as [?x|?e]; cbn [mbind Result_bind];
               [try match goal with
                    | p : PyVal * (option Z * option Z) |- _ => destruct p as [? [? ?]]
                    end|
                split; [reflexivity|discriminate]]
           end;
    (split; [split; discriminate|intros session [= <-]; reflexivity]).
Qed.

(** ** The collaborators *)

(** X19: the caller of [push_telemetry_event_session] never sees the
    transport: the outcome is the same for every behaviour of the collector;
    with telemetry disabled the call returns without reading anything; with
    telemetry enabled it raises exactly what the assembler raises. *)
Theorem push_outcome_ignores_transport (w : World)
    (telemetry_post telemetry_post' : EpisodeSession -> Result Z) (episode : Episode) :
  push_telemetry_event_session member_value w telemetry_post episode
    = push_telemetry_event_session member_value w telemetry_post' episode /\
  (is_telemetry_disabled w = true ->
   push_telemetry_event_session member_value w telemetry_post episode = Ok tt) /\
  (is_telemetry_disabled w = false ->
   forall e,
     push_telemetry_event_session member_value w telemetry_post episode = Raise e <->
     convert_episode_session_to_telemetry_event member_value w episode = Raise e).
Proof.
  unfold push_telemetry_event_session.
  destruct (is_telemetry_disabled w).
  - split; [reflexivity|]. split; [reflexivity|discriminate].
  - destruct (convert_episode_session_to_telemetry_event member_value w episode)
      as [session|e0]; cbn [mbind Result_bind].
    + unfold try_except.
      destruct (post_and_check telemetry_post session) as [[]|],
               (post_and_check telemetry_post' session) as [[]|];
        (split; [reflexivity|]; split; [discriminate|];
         intros _ e'; split; discriminate).
    + split; [reflexivity|]. split; [discriminate|].
      intros _ e. split; intros [= <-]; reflexivity.
Qed.

Lemma dict_lookup_head (k : string) (v : PyVal) (d : list (string * PyVal)) :
  dict_lookup k ((k, v) :: d) = Some v.
Proof. cbn. rewrite String.eqb_refl. reflexivity. Qed.

(** X20: the user id is read from the first entry of the identity file and
    from nothing else: the outcome is that of [entry["user"]["accountAddress"]]
    on the first entry, also when that entry is broken and a later one is
    complete; only the empty mapping gives ["unknown"]. *)
Theorem get_user_id_reads_first_entry (w : World) (key : string) (entry : PyVal)
    (rest : list (string * PyVal)) :
  load_user_key_map w = Ok (PDict ((key, entry) :: rest)) ->
  get_user_id w = (user ← py_getitem entry "user"; py_getitem user "accountAddress") /\
  (forall w' rest',
     load_user_key_map w' = Ok (PDict ((key, entry) :: rest')) ->
     get_user_id w' = get_user_id w).
Proof.
  intros H.
  assert (Hfirst : forall w0 rest0,
    load_user_key_map w0 = Ok (PDict ((key, entry) :: rest0)) ->
    get_user_id w0 = (user ← py_getitem entry "user"; py_getitem user "accountAddress")).
  { intros w0 rest0 H0. unfold get_user_id. rewrite H0. cbn [mbind Result_bind].
    rewrite (py_getitem_lookup _ _ _ (dict_lookup_head key entry rest0)).
    reflexivity. }
  split; [exact (Hfirst _ _ H)|].
  intros w' rest' H'. rewrite (Hfirst _ _ H), (Hfirst _ _ H'). reflexivity.
Qed.

Lemma py_getitem_raises (x : PyVal) (k : string) (e : exn) :
  py_getitem x k = Raise e -> e = KeyError \/ e = TypeError.
Proof.
  unfold py_getitem. destruct x as [| | | | |d]; try (intros [= <-]; right; reflexivity).
  destruct (dict_lookup k d); [discriminate|]. intros [= <-]. left; reflexivity.
Qed.

(** X21: [get_user_id] has no fallback for a file it cannot use: it raises
    the exception of reading the file, [AttributeError] for a JSON value that
    is not an object, and [KeyError] or [TypeError] for a first entry
    without the nested account address. *)
Theorem get_user_id_failure_modes (w : World) (e : exn) :
  get_user_id w = Raise e ->
  load_user_key_map w = Raise e \/
  (exists v, load_user_key_map w = Ok v /\ isinstance_dict v = false /\
             e = AttributeError) \/
  (exists key entry rest,
     load_user_key_map w = Ok (PDict ((key, entry) :: rest)) /\
     (e = KeyError \/ e = TypeError)).
Proof.
  unfold get_user_id.
  destruct (load_user_key_map w) as [v|e0]; cbn [mbind Result_bind];
    [|intros [= ->]; left; reflexivity].
  destruct v as [| | | | |[|[key entry] rest]];
    try (intros [= <-]; right; left; eexists; repeat split; reflexivity).
  intros H. right; right. exists key, entry, rest. split; [reflexivity|].
  rewrite (py_getitem_lookup _ _ _ (dict_lookup_head key entry rest)) in H.
  cbn [mbind Result_bind] in H.
  destruct (py_getitem entry "user") as [user|e1] eqn:Huser.
  - cbn [mbind Result_bind] in H. exact (py_getitem_raises _ _ _ H).
  - cbn [mbind Result_bind] in H. injection H as <-. exact (py_getitem_raises _ _ _ Huser).
Qed.

(** X22: the dataset lookup gives [None] or an [int] and nothing else: a
    question id that is a string, a list or null becomes [None], a falsy
    problem gives [None], and the only exception of its own is the
    [AttributeError] of a truthy problem that is not a record. *)
Theorem question_id_is_int_or_none (w : World) (problem_id : string) :
  (forall v, _load_problem_question_id w problem_id = Ok v ->
             v = PNone \/ isinstance_int v = true) /\
  (forall p, _load_problem w problem_id = Ok p -> truthy p = false ->
             _load_problem_question_id w problem_id = Ok PNone) /\
  (forall p qid, _load_problem w problem_id = Ok (PDict p) -> p <> [] ->
                 dict_lookup "question_id" p = Some qid -> isinstance_int qid = false ->
                 _load_problem_question_id w problem_id = Ok PNone) /\
  (forall e, _load_problem_question_id w problem_id = Raise e ->
             _load_problem w problem_id = Raise e \/
             (e = AttributeError /\
              exists p, _load_problem w problem_id = Ok p /\ truthy p = true /\
                        isinstance_dict p = false)).
Proof.
  unfold _load_problem_question_id.
  destruct (_load_problem w problem_id) as [p|e0]; cbn [mbind Result_bind].
  2:{ repeat split; try discriminate. intros e [= <-]. left; reflexivity. }
  split; [|split; [|split]].
  - intros v. destruct (truthy p); [|intros [= <-]; left; reflexivity].
    destruct (py_get p "question_id" PNone) as [qid|]; [|discriminate].
    cbn [mbind Result_bind].
    destruct (isinstance_int qid) eqn:Hint; intros [= <-]; auto.
  - intros p' [= <-] ->. reflexivity.
  - intros d qid [= ->] Hne Hqid Hint.
    destruct d; [congruence|]. cbn [truthy py_get mbind Result_bind].
    unfold dict_get. rewrite Hqid, Hint. reflexivity.
  - intros e. destruct (truthy p) eqn:Htruthy; [|discriminate].
    destruct p; try discriminate;
      cbn [py_get mbind Result_bind];
      try (intros [= <-]; right; split; [reflexivity|];
           eexists; split; [reflexivity|]; split; [exact Htruthy|reflexivity]).
    match goal with
    | |- context [isinstance_int ?x] => destruct (isinstance_int x); discriminate
    end.
Qed.

(** ** [_compute_percentile] at the ends of its range *)

Lemma length_concat_replicate {A} (k : nat) (l : list A) :
  length (concat (replicate k l)) = (k * length l)%nat.
Proof.
  induction k as [|k IH]; [reflexivity|].
  cbn [replicate concat]. rewrite length_app, IH. lia.
Qed.

Lemma sorted_Q_length (l : list Q) : length (sorted_Q l) = length l.
Proof.
  induction l as [|x l IH]; [reflexivity|]. cbn [sorted_Q length]. rewrite <- IH.
  generalize (sorted_Q l). intros s. induction s as [|y s IHs]; [reflexivity|].
  cbn [insert_Q]. destruct (Qle_bool x y); cbn [length]; [reflexivity|].
  rewrite IHs. reflexivity.
Qed.

(** Whenever [statistics.quantiles(data, n=100)] returns, it returns 99 cut
    points. *)
Lemma quantiles_length (repeats_single_point : bool) (data cuts : list Q) :
  quantiles repeats_single_point data 100 = Some cuts -> length cuts = 99%nat.
Proof.
  unfold quantiles. cbn [Z.ltb Z.compare].
  destruct (Nat.ltb_spec (length (sorted_Q data)) 2) as [Hlen|Hlen].
  - destruct repeats_single_point; [|discriminate]. cbn [andb].
    destruct (Nat.eqb_spec (length (sorted_Q data)) 1) as [Hone|]; [|discriminate].
    intros H.
    assert (Hgen : forall (k : nat) (l c : list Q),
              Some (concat (replicate k l)) = Some c -> length c = (k * length l)%nat)
      by (intros k l c [= <-]; apply length_concat_replicate).
    apply Hgen in H. rewrite H, Hone. reflexivity.
  - intros H. apply length_mapM in H. rewrite <- H, length_fmap, length_seq.
    reflexivity.
Qed.


Lemma py_list_getitem_negative {A} (l : list A) (i : Z) :
  - Z.of_nat (length l) <= i < 0 ->
  py_list_getitem l i = py_list_getitem l (Z.of_nat (length l) + i).
Proof.
  intros H. unfold py_list_getitem.
  destruct (Z.leb_spec 0 i) as [Hi|Hi]; [lia|].
  destruct (Z.leb_spec (- Z.of_nat (length l)) i); [|lia].
  destruct (Z.leb_spec 0 (Z.of_nat (length l) + i)); [reflexivity|lia].
Qed.


(** X24: below 1 the percentile wraps around: a percentile that truncates
    to [k] with [-98 <= k <= 0] is answered with the cut point of percentile
    [k + 99], so that percentile 0 (and every percentile below 1) gives the
    99th percentile, not the minimum. *)
Theorem percentile_wraps_below_one (repeats_single_point : bool) (data : list Q)
    (percentile percentile' : Q) :
  -98 <= int_of_Q percentile <= 0 ->
  int_of_Q percentile' = int_of_Q percentile + 99 ->
  _compute_percentile repeats_single_point data percentile
  = _compute_percentile repeats_single_point data percentile'.
Proof.
  intros Hk Hk'. unfold _compute_percentile. destruct data as [|x data]; [reflexivity|].
  destruct (quantiles repeats_single_point (x :: data) 100) as [cuts|] eqn:Hcuts;
    [|reflexivity].
  cbn [mbind option_bind]. pose proof (quantiles_length _ _ _ Hcuts) as Hlen.
  rewrite py_list_getitem_negative by (rewrite Hlen; lia).
  rewrite Hlen, Hk'.
  replace (Z.of_nat 99 + (int_of_Q percentile - 1))
    with (int_of_Q percentile + 99 - 1) by lia.
  reflexivity.
Qed.

(** X25: with a single data point the answer depends on the Python
    version: where [statistics.quantiles] rejects a single point the
    function gives 0.0 for every percentile, and where it accepts one the
    function gives the point for the percentiles 1 to 99. *)
Theorem percentile_of_single_point (x percentile : Q) :
  _compute_percentile false [x] percentile = 0%Q /\
  (1 <= int_of_Q percentile <= 99 -> _compute_percentile true [x] percentile = x).
Proof.
  split; [reflexivity|]. intros H. unfold _compute_percentile.
  change (quantiles true [x] 100) with (Some (replicate 99 x)).
  cbn [mbind option_bind]. unfold py_list_getitem.
  destruct (Z.leb_spec 0 (int_of_Q percentile - 1)) as [_|]; [|lia].
  rewrite lookup_replicate_2 by lia. reflexivity.
Qed.

(** ** The action counts of the record *)





End FurtherProperties.

(** ** The further properties at concrete inputs *)

Lemma action_counts_by_actor_and_kind_witness :
  exists stats,
    _compute_action_statistics snake_case_value (episode_of 0 mixed_states) = Ok stats /\
    assistant_actions stats !! EDIT_EXISTING_LINES = Some 1 /\
    human_actions stats !! EDIT_EXISTING_LINES = Some 0.
Proof.
  destruct (classifier_returns_on_readable_actions snake_case_value
              (episode_of 0 mixed_states)) as [stats Hstats]; [repeat constructor|].
  exists stats. split; [exact Hstats|].
  exact (action_counts_by_actor_and_kind snake_case_value (episode_of 0 mixed_states)
           stats EDIT_EXISTING_LINES Hstats).
Defined.

Lemma distance_lists_by_kind_witness :
  exists stats,
    _compute_action_statistics snake_case_value
      (episode_of 0 (mixed_states ++ [string_cursor_state])) = Ok stats /\
    edit_existing_distances stats = [6] /\
    explain_single_distances stats = [] /\
    explain_multi_distances stats = [].
Proof.
  destruct (classifier_returns_on_readable_actions snake_case_value
              (episode_of 0 (mixed_states ++ [string_cursor_state])))
    as [stats Hstats]; [repeat constructor|].
  exists stats. split; [exact Hstats|].
  exact (distance_lists_by_kind snake_case_value _ stats Hstats).
Defined.



Lemma cursor_line_of_first_usable_entry_witness :
  _get_cursor_line_from_attribution
    (unusable_entries ++ cursor_line_and_offset :: [cursor_on_line_7]) = Ok (PInt 4).
Proof.
  apply (cursor_line_of_first_usable_entry unusable_entries [cursor_on_line_7]
           cursor_line_and_offset [("char", PInt 800); ("line", PInt 4)] (PInt 4));
    [repeat constructor|reflexivity|reflexivity].
Defined.

Lemma cursor_line_estimated_from_offset_witness :
  exists line,
    _get_cursor_line_from_attribution
      (unusable_entries ++ cursor_offset_170 :: [cursor_on_line_7]) = Ok (PInt line) /\
    1 <= line /\
    (170 < 160 -> line = 1) /\
    (160 <= 170 -> 80 * line <= 170 < 80 * line + 80).
Proof.
  apply (cursor_line_estimated_from_offset unusable_entries [cursor_on_line_7]
           cursor_offset_170 [("char", PInt 170)] (PInt 170) 170);
    [repeat constructor|reflexivity..].
Defined.

Lemma cursor_offset_not_a_number_raises_witness :
  _get_cursor_line_from_attribution
    (unusable_entries ++ cursor_offset_text :: [cursor_on_line_7]) = Raise TypeError /\
  _calculate_cursor_distance text_offset_state = Raise TypeError.
Proof.
  apply (cursor_offset_not_a_number_raises unusable_entries [cursor_on_line_7]
           cursor_offset_text [("char", PStr "170")] (PStr "170") text_offset_state
           [("A", PDict [("type", PStr "edit_existing_lines")])]);
    [repeat constructor|reflexivity..|discriminate].
Defined.


Lemma regression_rates_failure_modes_witness :
  _compute_regression_rates (episode_of 0 [untagged_action_state]) = Ok zero_rates.
Proof.
  apply (proj2 (regression_rates_failure_modes (episode_of 0 [untagged_action_state]))).
  cbn. lia.
Defined.

Lemma reversed_episode_swaps_rates_witness :
  exists rates rates',
    _compute_regression_rates (episode_of 0 regressed_states) = Ok rates /\
    _compute_regression_rates (episode_of 0 (rev regressed_states)) = Ok rates' /\
    (test_regression_rate rates' == test_progression_rate rates)%Q /\
    (compile_regression_rate rates' == compile_progression_rate rates)%Q.
Proof.
  destruct (regression_rates_return (episode_of 0 regressed_states))
    as [rates Hrates]; [repeat constructor|].
  destruct (regression_rates_return (episode_of 0 (rev regressed_states)))
    as [rates' Hrates']; [repeat constructor|].
  exists rates, rates'. split; [exact Hrates|]. split; [exact Hrates'|].
  destruct (reversed_episode_swaps_rates (episode_of 0 regressed_states)
              (episode_of 0 (rev regressed_states)) rates rates' eq_refl Hrates Hrates')
    as (Htr & _ & Hcr & _).
  split; assumption.
Defined.

Lemma latency_percentiles_are_deltas_witness :
  exists stats,
    _compute_latency_stats (episode_of 0 latency_sample_states) = Ok stats /\
    p50_latency_ms stats ∈ valid_deltas latency_sample_states /\
    0 < p50_latency_ms stats.
Proof.
  destruct (latency_percentiles_are_deltas (episode_of 0 latency_sample_states))
    as (stats & Hstats & _ & Hdeltas).
  exists stats. split; [exact Hstats|].
  destruct Hdeltas as (H50 & _ & _ & Hpos); [discriminate|].
  split; assumption.
Defined.

Lemma small_samples_report_the_maximum_witness :
  exists stats,
    _compute_latency_stats (episode_of 0 latency_sample_states) = Ok stats /\
    is_max_of (p99_latency_ms stats) (valid_deltas latency_sample_states) /\
    is_max_of (p90_latency_ms stats) (valid_deltas latency_sample_states).
Proof.
  destruct (latency_stats_return (episode_of 0 latency_sample_states))
    as [stats Hstats].
  exists stats. split; [exact Hstats|].
  destruct (small_samples_report_the_maximum _ stats Hstats) as (H99 & H90 & _);
    [discriminate|].
  split; [apply H99|apply H90]; vm_compute; lia.
Defined.

Lemma latency_stats_ignore_stored_order_witness :
  _compute_latency_stats (episode_of 0 latency_sample_states)
  = _compute_latency_stats (episode_of 5 latency_sample_swapped).
Proof.
  apply (latency_stats_ignore_stored_order (episode_of 0 latency_sample_states)
           (episode_of 5 latency_sample_swapped)).
  - apply Permutation_swap.
  - refine (bool_decide_unpack
              (NoDup (timestep <$> states (episode_of 0 latency_sample_states))) _).
    vm_compute. exact I.
Defined.

Lemma pass_fields_describe_first_passing_state_witness :
  exists session,
    convert_episode_session_to_telemetry_event snake_case_value answering_world
      (episode_of 0 regressed_states) = Ok session /\
    (time_to_pass session = None <-> turns_to_pass session = None) /\
    (forall t, time_to_pass session = Some t -> 0 <= t).
Proof.
  destruct (regular_episode_converts snake_case_value answering_world
              (episode_of 0 regressed_states) (PStr "0xabc") (PInt 1)
              eq_refl eq_refl) as [session Hsession]; [repeat constructor..|].
  exists session. split; [exact Hsession|].
  destruct (pass_fields_describe_first_passing_state snake_case_value answering_world
              (episode_of 0 regressed_states) session Hsession) as (H1 & _ & H3 & _).
  split; assumption.
Defined.


Lemma success_implies_pass_fields_witness :
  exists session t n final_state,
    convert_episode_session_to_telemetry_event snake_case_value answering_world
      (episode_of 0 (scenario_states [] [] [])) = Ok session /\
    time_to_pass session = Some t /\
    turns_to_pass session = Some n /\
    final_state_of (scenario_states [] [] []) = Some final_state /\
    n <= timestep final_state.
Proof.
  destruct (regular_episode_converts snake_case_value answering_world
              (episode_of 0 (scenario_states [] [] [])) (PStr "0xabc") (PInt 1)
              eq_refl eq_refl) as [session Hsession]; [repeat constructor..|].
  assert (Hsuccess : truthy (success session) = true).
  { pose proof (convert_pass_analysis snake_case_value answering_world _ _ Hsession)
      as [Hs _]. exact Hs. }
  destruct (success_implies_pass_fields snake_case_value answering_world
              (episode_of 0 (scenario_states [] [] [])) session Hsession Hsuccess)
    as (t & n & final_state & H).
  exists session, t, n, final_state. split; [exact Hsession|exact H].
Defined.


Lemma ip_lookup_cannot_fail_the_record_witness :
  convert_episode_session_to_telemetry_event snake_case_value
    (with_icanhazip unreadable_identity_world (Raise RequestException))
    (episode_of 0 mixed_states) = Raise OSError.
Proof.
  apply (proj1 (ip_lookup_cannot_fail_the_record snake_case_value
                  unreadable_identity_world (episode_of 0 mixed_states)
                  (Raise RequestException))).
  reflexivity.
Defined.

Lemma push_outcome_ignores_transport_witness :
  push_telemetry_event_session snake_case_value switched_off_world failing_post
    (episode_of 0 [scalar_branch_state]) = Ok tt /\
  push_telemetry_event_session snake_case_value answering_world failing_post
    (episode_of 0 mixed_states)
  = push_telemetry_event_session snake_case_value answering_world unreachable_post
      (episode_of 0 mixed_states).
Proof.
  split.
  - apply (proj1 (proj2 (push_outcome_ignores_transport snake_case_value
                           switched_off_world failing_post unreachable_post
                           (episode_of 0 [scalar_branch_state])))).
    reflexivity.
  - exact (proj1 (push_outcome_ignores_transport snake_case_value answering_world
                    failing_post unreachable_post (episode_of 0 mixed_states))).
Defined.

Lemma get_user_id_reads_first_entry_witness :
  get_user_id broken_first_entry_world = Raise KeyError /\
  get_user_id answering_world = Ok (PStr "0xabc").
Proof.
  split.
  - exact (proj1 (get_user_id_reads_first_entry broken_first_entry_world "first"
                    (PDict [("label", PStr "old")])
                    [("second", PDict [("user", PDict [("accountAddress", PStr "0xabc")])])]
                    eq_refl)).
  - exact (proj1 (get_user_id_reads_first_entry answering_world "key"
                    (PDict [("user", PDict [("accountAddress", PStr "0xabc")])]) []
                    eq_refl)).
Defined.

Lemma get_user_id_failure_modes_witness :
  load_user_key_map unreadable_identity_world = Raise OSError \/
  (exists v, load_user_key_map unreadable_identity_world = Ok v /\
             isinstance_dict v = false /\ OSError = AttributeError) \/
  (exists key entry rest,
     load_user_key_map unreadable_identity_world = Ok (PDict ((key, entry) :: rest)) /\
     (OSError = KeyError \/ OSError = TypeError)).
Proof.
  exact (get_user_id_failure_modes unreadable_identity_world OSError eq_refl).
Defined.

Lemma question_id_is_int_or_none_witness :
  _load_problem_question_id broken_first_entry_world "two-sum" = Ok PNone /\
  (forall v, _load_problem_question_id answering_world "two-sum" = Ok v ->
             v = PNone \/ isinstance_int v = true).
Proof.
  split.
  - apply (proj1 (proj2 (proj2 (question_id_is_int_or_none broken_first_entry_world
                                  "two-sum")))
             [("question_id", PStr "12")] (PStr "12")); [reflexivity|discriminate|
                                                          reflexivity|reflexivity].
  - exact (proj1 (question_id_is_int_or_none answering_world "two-sum")).
Defined.


Lemma percentile_wraps_below_one_witness :
  _compute_percentile false percentile_sample 0
  = _compute_percentile false percentile_sample 99.
Proof.
  apply (percentile_wraps_below_one false percentile_sample 0 99).
  - vm_compute. split; discriminate.
  - reflexivity.
Defined.

Lemma percentile_of_single_point_witness :
  _compute_percentile false [7%Q] 50 = 0%Q /\ _compute_percentile true [7%Q] 50 = 7%Q.
Proof.
  destruct (percentile_of_single_point 7 50) as [Hold Hnew].
  split; [exact Hold|]. apply Hnew. vm_compute. split; discriminate.
Defined.

